(** * HappyPhoneBot: the download / update simulation engine

    A shallow embedding of the terminal's network simulator (the two
    [network.js] variants of the repository) and of the package manager
    ([pkg.js]), with the properties of the specification stated over it.

    Conventions of the embedding.
    - JavaScript numbers are exact rationals ([Q]); [Math.round],
      [Math.ceil], [Math.max] and [Math.min] are the corresponding
      operations on [Q].  Results of [Math.round] and [Math.ceil] are
      integers ([Z]).  Equalities between computed numbers are stated with
      [==] ([Qeq]).
    - Every call of [Math.random()] is an explicit argument: the draw used
      for the jitter, and a function giving the draw used at each step.
    - [getUserNetworkConfig(userId)] is the configuration record handed to
      the function.
    - Template strings are kept as structured messages (template and
      arguments), without rendering numbers to text.
    - The [Map] of active downloads and the persisted filesystems are
      finite maps keyed by strings. *)

From Stdlib Require Import ZArith QArith Qround Qminmax Lqa Lia List String Ascii Bool.
From stdpp Require Import base option list strings gmap fin_maps.

Open Scope Q_scope.

(** ** JavaScript arithmetic on exact numbers *)

(** [Math.round(x)]: the nearest integer, halves rounded up. *)
Definition Math_round (x : Q) : Z := Qfloor (x + (1 # 2)).

(** [Math.ceil(x)]. *)
Definition Math_ceil (x : Q) : Z := Qceiling x.

(** [x > 0] and [x < y] on numbers, as booleans. *)
Definition Qltb (x y : Q) : bool := negb (Qle_bool y x).

(** Truthiness of a number: [0] is falsy (there is no [NaN] here). *)
Definition truthy (x : Q) : bool := negb (Qeq_bool x 0).

(** ** Data model *)

(** The per-user network configuration ([DEFAULT_CONFIG] gives its shape). *)
Record Config := mkConfig {
  speed : Q;        (* Mbps *)
  latency : Q;      (* ms *)
  packetLoss : Q;   (* percentage *)
  jitter : Q;       (* ms *)
  enabled : bool
}.

Definition DEFAULT_CONFIG : Config :=
  {| speed := 500; latency := 20; packetLoss := 0; jitter := 0; enabled := true |}.

(** What the setters of the terminal accept: [netset] wants a positive
    speed, [netlatency] and [netjitter] a non-negative value, [netloss] a
    value between 0 and 100. *)
Definition valid_config (c : Config) : Prop :=
  0 < speed c /\ 0 <= latency c /\ 0 <= jitter c /\
  0 <= packetLoss c /\ packetLoss c <= 100.

(** Messages, kept as template and arguments. *)
Inductive Message :=
| MsgInstant (size : Q)                       (* Downloaded <size> instantly *)
| MsgDownloaded (size : Q) (time : Q)         (* Downloaded <size> in <time> *)
| MsgDownloading (name : string) (progress downloaded size : Q).
                          (* Downloading <name>... <p>% (<downloaded>/<size>) *)

(** One progress step of a plan. *)
Record Step := mkStep {
  progress : Q;
  message : Message;
  wait : Q;
  complete : bool
}.

(** The result of [calculateDownloadTime]. *)
Record DownloadTime := mkDownloadTime { time : Z; size : Q }.

(** The state of one transfer, as stored in [activeDownloads].  A package
    download carries no [isUpdate] and no [targetVersion]. *)
Record DownloadState := mkDownloadState {
  steps : list Step;
  currentStep : nat;
  lastUpdate : Z;
  isUpdate : bool;
  targetVersion : option string
}.

Definition set_currentStep (n : nat) (ds : DownloadState) : DownloadState :=
  {| steps := steps ds; currentStep := n; lastUpdate := lastUpdate ds;
     isUpdate := isUpdate ds; targetVersion := targetVersion ds |}.

Definition set_steps (l : list Step) (ds : DownloadState) : DownloadState :=
  {| steps := l; currentStep := currentStep ds; lastUpdate := lastUpdate ds;
     isUpdate := isUpdate ds; targetVersion := targetVersion ds |}.

(** The single step of an instant transfer. *)
Definition instantStep (size : Q) : Step :=
  {| progress := 100; message := MsgInstant size; wait := 0; complete := true |}.

(** The loop counter as a number. *)
Definition num (i : nat) : Q := inject_Z (Z.of_nat i).

(** [a || b] where [a] is a number or [undefined]. *)
Definition js_or (a : option Q) (b : Q) : Q :=
  match a with
  | Some x => if truthy x then x else b
  | None => b
  end.

(** [PACKAGE_SIZES] of the network modules (sizes in KB); both files carry
    the same table. *)
Definition NET_PACKAGE_SIZES (packageName : string) : option Q :=
  if String.eqb packageName "echo" then Some 472
  else if String.eqb packageName "edit" then Some 8400
  else if String.eqb packageName "test" then Some 407
  else if String.eqb packageName "edit-file" then Some 8400
  else if String.eqb packageName "happyphone" then Some 413
  else None.

(** The update interval of the step generators, in ms. *)
Definition updateInterval : Q := 1500.

(** ** recalculateDownloadSteps, whose text is the same in both modules

    [calc] is the module's own [calculateDownloadTime(userId, packageName)];
    [rw i] is the value of [Math.random()] drawn in iteration [i]. *)

Section Recalculate.

Variable calc : Config -> Q -> string -> DownloadTime.

(** The remaining time in ms, floored at 100 ms. *)
Definition remainingTimeMs (cfg : Config) (remainingSize : Q) : Q :=
  let remainingSizeInBits := remainingSize * 8 * 1024 in
  let speedInBitsPerSec := speed cfg * 1000000 in
  let remainingTimeSeconds := remainingSizeInBits / speedInBitsPerSec in
  Qmax 100 (remainingTimeSeconds * 1000).

(** The body of the loop building the new steps. *)
Definition newStep (rw : nat -> Q) (packageName : string)
    (time : Z) (size currentProgress : Q) (remainingTime : Q)
    (numUpdates : Z) (i : nat) : Step :=
  let downloadedAmount := size * currentProgress / 100 in
  let remainingSize := size - downloadedAmount in
  let bytesPerMs := remainingSize / remainingTime in
  let isComplete := Z.eqb (Z.of_nat i) (numUpdates - 1) in
  let waitTime :=
    if isComplete then Qmax 500 (remainingTime - num i * updateInterval)
    else updateInterval * ((9 # 10) + rw i * (2 # 10)) in
  let elapsedTime := num i * updateInterval in
  let additionalDownloaded :=
    if isComplete then remainingSize
    else Qmin remainingSize (bytesPerMs * elapsedTime) in
  let stepDownloadedAmount := downloadedAmount + additionalDownloaded in
  let progress := stepDownloadedAmount / size * 100 in
  {| progress := progress;
     message :=
       if isComplete
       then MsgDownloaded size
              (inject_Z time * (currentProgress / 100) + remainingTime)
       else MsgDownloading packageName progress stepDownloadedAmount size;
     wait := waitTime;
     complete := isComplete |}.

(** The new steps computed from the progress reached so far. *)
Definition newSteps (cfg : Config) (rw : nat -> Q) (packageName : string)
    (time : Z) (size currentProgress : Q) : list Step :=
  let downloadedAmount := size * currentProgress / 100 in
  let remainingSize := size - downloadedAmount in
  let remainingTime := remainingTimeMs cfg remainingSize in
  let numUpdates := Z.max 1 (Math_ceil (remainingTime / updateInterval)) in
  fmap (newStep rw packageName time size currentProgress remainingTime numUpdates)
      (seq 0 (Z.to_nat numUpdates)).

(** [recalculateDownloadSteps(userId, packageName, downloadState)];
    [None] is a missing state. *)
Definition recalculateDownloadSteps (cfg : Config) (rj : Q) (rw : nat -> Q)
    (packageName : string) (downloadState : option DownloadState)
    : option DownloadState :=
  match downloadState with
  | None => None
  | Some ds =>
    if (length (steps ds) <=? currentStep ds)%nat then Some ds
    else
      let r := calc cfg rj packageName in
      if Z.eqb (time r) 0 || negb (enabled cfg) || Z.ltb (time r) 100 then
        Some (set_currentStep (length (steps ds) - 1) ds)
      else
        match steps ds !! currentStep ds with
        | None => Some ds   (* excluded by the test on [currentStep] *)
        | Some cur =>
          let currentProgress := progress cur in
          Some (set_steps
                  (take (currentStep ds + 1) (steps ds)
                   ++ newSteps cfg rw packageName (time r) (size r) currentProgress)
                  ds)
        end
  end.

End Recalculate.

(** ** src/unnamed/part_001: the network module with the proportional floor *)

Module Part001.

Definition PACKAGE_SIZES := NET_PACKAGE_SIZES.

(** [calculateDownloadTime(userId, packageName, packageSizeKB)]; [cfg] is
    the user's configuration and [rj] the value of [Math.random()] drawn
    for the jitter. *)
Definition calculateDownloadTime (cfg : Config) (rj : Q)
    (packageName : string) (packageSizeKB : option Q) : DownloadTime :=
  let packageSize := js_or packageSizeKB (js_or (PACKAGE_SIZES packageName) 1024) in
  if negb (enabled cfg) then {| time := 0; size := packageSize |}
  else
    let sizeInBits := packageSize * 8 * 1024 in
    let speedInBitsPerSec := speed cfg * 1000000 in
    let downloadTimeSeconds := sizeInBits / speedInBitsPerSec in
    let downloadTime := downloadTimeSeconds * 1000 in
    let minTime := Qmin 1000 packageSize in
    let downloadTime := Qmax minTime downloadTime in
    let downloadTime := downloadTime + latency cfg in
    let downloadTime :=
      if Qltb 0 (jitter cfg) then
        let jitterAmount := rj * jitter cfg in
        downloadTime + jitterAmount
      else downloadTime in
    let downloadTime :=
      if Qltb 0 (packetLoss cfg) then
        let packetLossFactor := 1 + packetLoss cfg / 100 in
        downloadTime * packetLossFactor
      else downloadTime in
    {| time := Math_round downloadTime; size := packageSize |}.

(** The body of the loop of [createDownloadSteps], for [i] from 1 to
    [numUpdates]. *)
Definition createStep (packageName : string) (time : Z) (size : Q)
    (numUpdates : Z) (i : nat) : Step :=
  let isLast := Z.eqb (Z.of_nat i) numUpdates in
  let wait :=
    if isLast
    then Qmax 50 (inject_Z time - updateInterval * inject_Z (numUpdates - 1))
    else updateInterval in
  let elapsed := Qmin (inject_Z time) (num i * updateInterval) in
  let progress :=
    inject_Z (Math_round (elapsed / inject_Z time * 100 * 10)) / 10 in
  let downloaded := size * elapsed / inject_Z time in
  let message :=
    if isLast then MsgDownloaded size (inject_Z time)
    else MsgDownloading packageName progress downloaded size in
  {| progress := if isLast then 100 else progress;
     message := message;
     wait := wait;
     complete := isLast |}.

(** [createDownloadSteps(userId, packageName, packageSizeKB)]. *)
Definition createDownloadSteps (cfg : Config) (rj : Q)
    (packageName : string) (packageSizeKB : option Q) : list Step :=
  let size := js_or packageSizeKB (js_or (PACKAGE_SIZES packageName) 1024) in
  let time := time (calculateDownloadTime cfg rj packageName (Some size)) in
  if negb (enabled cfg) then [instantStep size]
  else
    let numUpdates := Math_ceil (inject_Z time / updateInterval) in
    fmap (createStep packageName time size numUpdates)
        (seq 1 (Z.to_nat numUpdates)).

(** [recalculateDownloadSteps]: the size argument of
    [calculateDownloadTime] is left out there. *)
Definition recalculateDownloadSteps :=
  recalculateDownloadSteps
    (fun cfg rj packageName => calculateDownloadTime cfg rj packageName None).

End Part001.

(** ** src/commands/main/terminal/network.js: the variant with the 30 ms cut *)

Module NetworkJs.

Definition PACKAGE_SIZES := NET_PACKAGE_SIZES.

(** [calculateDownloadTime(userId, packageName)]. *)
Definition calculateDownloadTime (cfg : Config) (rj : Q)
    (packageName : string) : DownloadTime :=
  let packageSize := js_or (PACKAGE_SIZES packageName) 1024 in
  if negb (enabled cfg) then {| time := 0; size := packageSize |}
  else
    let sizeInBits := packageSize * 8 * 1024 in
    let speedInBitsPerSec := speed cfg * 1000000 in
    let downloadTimeSeconds := sizeInBits / speedInBitsPerSec in
    let downloadTime := downloadTimeSeconds * 1000 in
    if Qltb downloadTime 30 then {| time := 0; size := packageSize |}
    else
      let downloadTime := downloadTime + latency cfg in
      let downloadTime :=
        if Qltb 0 (jitter cfg) then
          let jitterAmount := rj * jitter cfg in
          downloadTime + jitterAmount
        else downloadTime in
      let downloadTime :=
        if Qltb 0 (packetLoss cfg) then
          let packetLossFactor := 1 + packetLoss cfg / 100 in
          downloadTime * packetLossFactor
        else downloadTime in
      {| time := Math_round downloadTime; size := packageSize |}.

(** The body of the loop of [createDownloadSteps], for [i] from 0 to
    [numUpdates - 1]; [rw i] is the value of [Math.random()] drawn in
    iteration [i]. *)
Definition createStep (rw : nat -> Q) (packageName : string)
    (time : Z) (size : Q) (numUpdates : Z) (i : nat) : Step :=
  let bytesPerMs := size / inject_Z time in
  let isComplete := Z.eqb (Z.of_nat i) (numUpdates - 1) in
  let waitTime :=
    if isComplete then Qmax 500 (inject_Z time - num i * updateInterval)
    else updateInterval * ((9 # 10) + rw i * (2 # 10)) in
  let elapsedTime := num i * updateInterval in
  let downloadedAmount :=
    if isComplete then size else Qmin size (bytesPerMs * elapsedTime) in
  let progress := downloadedAmount / size * 100 in
  {| progress := progress;
     message :=
       if isComplete then MsgDownloaded size (inject_Z time)
       else MsgDownloading packageName progress downloadedAmount size;
     wait := waitTime;
     complete := isComplete |}.

(** [createDownloadSteps] from its third line on, once [time] and [size]
    have been obtained from [calculateDownloadTime]. *)
Definition createDownloadSteps_body (cfg : Config) (rw : nat -> Q)
    (packageName : string) (time : Z) (size : Q) : list Step :=
  if Z.eqb time 0 || negb (enabled cfg) || Z.ltb time 100 then
    [instantStep size]
  else
    let numUpdates := Z.max 3 (Math_ceil (inject_Z time / updateInterval)) in
    fmap (createStep rw packageName time size numUpdates)
        (seq 0 (Z.to_nat numUpdates)).

(** [createDownloadSteps(userId, packageName)]. *)
Definition createDownloadSteps (cfg : Config) (rj : Q) (rw : nat -> Q)
    (packageName : string) : list Step :=
  let r := calculateDownloadTime cfg rj packageName in
  createDownloadSteps_body cfg rw packageName (time r) (size r).

Definition recalculateDownloadSteps :=
  recalculateDownloadSteps calculateDownloadTime.

End NetworkJs.

(** ** src/unnamed/part_002: the package manager (pkg.js) *)

(** [s.split(c)] for a one-character separator. *)
Fixpoint split_on (c : ascii) (s : string) : list string :=
  match s with
  | EmptyString => [EmptyString]
  | String a rest =>
    if Ascii.eqb a c then EmptyString :: split_on c rest
    else match split_on c rest with
         | [] => [String a EmptyString]
         | p :: ps => String a p :: ps
         end
  end.

Definition digit_of (a : ascii) : option Z :=
  let n := Z.of_nat (nat_of_ascii a) in
  if (48 <=? n)%Z && (n <=? 57)%Z then Some (n - 48)%Z else None.

(** The value of a string of decimal digits read after the digits [acc]. *)
Fixpoint digits_value (acc : Z) (s : string) : option Z :=
  match s with
  | EmptyString => Some acc
  | String a rest =>
    match digit_of a with
    | Some d => digits_value (10 * acc + d)%Z rest
    | None => None
    end
  end.

(** [Number(s)] on a component of a version: the empty string is 0, a
    string of decimal digits is its value, and anything else is read as
    [NaN] ([None]).  (The other numeric literals of JavaScript, with signs,
    exponents, radix prefixes or blanks, do not occur in version strings.) *)
Definition Number (s : string) : option Z := digits_value 0 s.

(** [parts[i] || 0]: a missing component, [NaN] and 0 all give 0. *)
Definition part_or_0 (parts : list (option Z)) (i : nat) : Z :=
  match parts !! i with
  | Some (Some v) => v
  | _ => 0%Z
  end.

(** The loop of [compareVersions], from index [i], with [todo] iterations
    left. *)
Fixpoint compareFrom (v1Parts v2Parts : list (option Z)) (i todo : nat) : Z :=
  match todo with
  | O => 0%Z
  | S todo' =>
    let v1Part := part_or_0 v1Parts i in
    let v2Part := part_or_0 v2Parts i in
    if (v1Part >? v2Part)%Z then 1%Z
    else if (v1Part <? v2Part)%Z then (-1)%Z
    else compareFrom v1Parts v2Parts (S i) todo'
  end.

(** [compareVersions(version1, version2)]. *)
Definition compareVersions (version1 version2 : string) : Z :=
  let v1Parts := Number <$> split_on "." version1 in
  let v2Parts := Number <$> split_on "." version2 in
  compareFrom v1Parts v2Parts 0 (Nat.max (length v1Parts) (length v2Parts)).

(** *** What the specification says of compareVersions *)

(** The numeric components of a version, a component that is not a number
    counting as 0. *)
Definition components (v : string) : list Z :=
  (fun o => default 0%Z o) <$> (Number <$> split_on "." v).

(** The components followed by as many zeros as needed to reach [n]. *)
Definition padded (n : nat) (l : list Z) : list Z :=
  l ++ replicate (n - length l) 0%Z.

(** Comparison of two lists of the same length, left to right. *)
Fixpoint lex_compare (l1 l2 : list Z) : Z :=
  match l1, l2 with
  | a :: l1', b :: l2' =>
    match (a ?= b)%Z with
    | Lt => (-1)%Z
    | Gt => 1%Z
    | Eq => lex_compare l1' l2'
    end
  | _, _ => 0%Z
  end.


Definition compareVersions_spec (a b : string) : Z :=
  let n := Nat.max (length (components a)) (length (components b)) in
  lex_compare (padded n (components a)) (padded n (components b)).

(** *** The state of the package manager *)

(** A node of the virtual filesystem; what a directory contains is not
    looked at by the package manager. *)
Inductive Node :=
| File (content : string)
| Directory.

(** The part of [userFS.fs["/"]] the package manager works on: under
    [sys], the directory [pkgs] and the leaves [os_version] and
    [os_branch] when they exist (the content of [os_version] is [None]
    once [undefined] has been assigned to it), and the leaf [os_branch]
    directly under the root, which an instant install reads. *)
Record UserFS := mkUserFS {
  pkgs : gmap string Node;
  os_version : option (option string);
  os_branch : option string;
  root_os_branch : option string
}.

(** The process-wide state: the [Map] of active downloads, the table
    [user_filesystems] of the database, and the log of the calls of
    [saveToDB] on that table, latest first. *)
Record World := mkWorld {
  activeDownloads : gmap string DownloadState;
  user_filesystems : gmap string UserFS;
  saves : list (string * UserFS)
}.

(** What the commands answer. *)
Inductive Reply :=
| StepMessage (m : Message)
| SystemUpdatedOn (version : option string) (branch : string)
    (* System updated to version <v> (<b> branch) *)
| SystemUpdated (version : option string)
    (* System updated to version <v> *)
| PackageInstalled (name : string)
    (* Package <name> installed successfully *)
| InstalledPackage (name : string)
    (* Installed package: <name> *)
| StartedUpdate (version : string) (first : Message)
| StartedDownload (name : string) (first : Message)
| MissingSubcommand
| InvalidSubcommand
| UnknownBranch (branch : string)
| AlreadyUpToDate (branch : string)
| StartingDowngrade (fromBranch : string) (fromVersion : option string)
    (toBranch : string) (toVersion : option string) (first : Message)
| StartingSwitch (version : option string) (branch : string) (first : Message)
| StartingUpgrade (version : option string) (branch : string) (first : Message)
| UsageInstall
| AlreadyInstalled (name : string)
    (* pkg: Package '<name>' is already installed. *)
| RequiresVersion (name branch minVersion : string)
| NotOnBranch (name branch : string)
| PackageNotFound (name : string)
| UsageRemove
| RemoveNotFound (name : string)
| RemovedPackage (name : string)
| NoDownloadFor (name : string)
| Listing.
    (* the answers of list, search, branches and of status without a name,
       which only read the state *)

(** How a call ends: with a value ([None] is [null]) or with a
    [TypeError] thrown on a missing object. *)
Inductive Outcome :=
| Returned (r : option Reply)
| Thrown.

(** The minimum versions of a package on the two branches. *)
Record PackageDefinition := mkPackageDefinition {
  stable_minVersion : string;
  unstable_minVersion : string
}.

Definition minVersion_on (d : PackageDefinition) (osBranch : string) : option string :=
  if String.eqb osBranch "stable" then Some (stable_minVersion d)
  else if String.eqb osBranch "unstable" then Some (unstable_minVersion d)
  else None.

(** [s || fallback] on a string that may be [undefined]. *)
Definition string_or (s : option string) (fallback : string) : string :=
  match s with
  | Some c => if String.eqb c "" then fallback else c
  | None => fallback
  end.

(** [leaf?.content] of a leaf that may be missing. *)
Definition content_of (leaf : option (option string)) : option string :=
  match leaf with
  | Some c => c
  | None => None
  end.

(** A value inside a template string. *)
Definition str (s : option string) : string := default "undefined" s.

Definition set_activeDownloads (m : gmap string DownloadState) (w : World) : World :=
  {| activeDownloads := m; user_filesystems := user_filesystems w; saves := saves w |}.

(** Modelled from the spec: [saveToDB] of db/utils, which is not among the
    sources; [save(table, key, value)] stores the value under the key.
    Here [saveToDB("user_filesystems", userId, userFS)], which also logs
    the call. *)
Definition saveToDB (userId : string) (userFS : UserFS) (w : World) : World :=
  {| activeDownloads := activeDownloads w;
     user_filesystems := <[userId := userFS]> (user_filesystems w);
     saves := (userId, userFS) :: saves w |}.

Definition download_key (userId packageName : string) : string :=
  userId ++ ":" ++ packageName.

(** [getDownloadStatus(userId, packageName)]. *)
Definition getDownloadStatus (w : World) (userId packageName : string)
    : option DownloadState :=
  activeDownloads w !! download_key userId packageName.

(** [setDownloadStatus(userId, packageName, downloadState)]. *)
Definition setDownloadStatus (userId packageName : string)
    (downloadState : option DownloadState) (w : World) : World :=
  match downloadState with
  | None => set_activeDownloads (delete (download_key userId packageName) (activeDownloads w)) w
  | Some ds => set_activeDownloads (<[download_key userId packageName := ds]> (activeDownloads w)) w
  end.

(** The record written for an installed package. *)
Definition package_record (packageName currentVersion currentBranch : string) : Node :=
  File ("Package: " ++ packageName ++ String "010" "Version: " ++ currentVersion
        ++ String "010" "Branch: " ++ currentBranch).

Definition with_os_version (v : option string) (userFS : UserFS) : UserFS :=
  {| pkgs := pkgs userFS; os_version := Some v; os_branch := os_branch userFS;
     root_os_branch := root_os_branch userFS |}.

Definition with_os_branch (b : string) (userFS : UserFS) : UserFS :=
  {| pkgs := pkgs userFS; os_version := os_version userFS; os_branch := Some b;
     root_os_branch := root_os_branch userFS |}.

Definition with_pkg (fileName : string) (n : Node) (userFS : UserFS) : UserFS :=
  {| pkgs := <[fileName := n]> (pkgs userFS);
     os_version := os_version userFS; os_branch := os_branch userFS;
     root_os_branch := root_os_branch userFS |}.

Definition without_pkg (fileName : string) (userFS : UserFS) : UserFS :=
  {| pkgs := delete fileName (pkgs userFS);
     os_version := os_version userFS; os_branch := os_branch userFS;
     root_os_branch := root_os_branch userFS |}.

(** [steps.length === 1 && steps[0].wait === 0]. *)
Definition is_instant (steps : list Step) : bool :=
  match steps with
  | [first] => Qeq_bool (wait first) 0
  | _ => false
  end.

(** The result of a call that works on the caller's [userFS] object. *)
Record Result := mkResult {
  world : World;
  userFS_after : UserFS;
  outcome : Outcome
}.

Section Pkg.

(** What [loadPackages] and [loadUpdates] read from the [packages] and
    [updates] directories, the network module behind
    [require("./network")], and the default tree of the filesystem
    module. *)
Variable packageDefinitions : gmap string PackageDefinition.
Variable PACKAGE_SIZES : gmap string Q.
Variable UPDATE_SIZES : gmap string Q.
Variable osBranches : gmap string string.
Variable createDownloadSteps : string -> string -> option Q -> list Step.
Variable createFilesystem : UserFS.

(** [isPackageAvailable(packageName, osVersion, osBranch)]. *)
Definition isPackageAvailable (packageName osVersion osBranch : string) : bool :=
  match packageDefinitions !! packageName with
  | None => false
  | Some d =>
    match minVersion_on d osBranch with
    | None => false
    | Some minVersion => (0 <=? compareVersions osVersion minVersion)%Z
    end
  end.

(** [getUpdateSize(version)]. *)
Definition getUpdateSize (version : string) : Q :=
  js_or (UPDATE_SIZES !! version) 2048.

(** [processDownload(userId, userFS, packageName, initialRequest)], called
    at time [now]. *)
Definition processDownload (now : Z) (w : World) (userId : string)
    (userFS : UserFS) (packageName : string) (initialRequest : bool) : Result :=
  let downloadState := getDownloadStatus w userId packageName in
  let isUpdate := String.prefix "update-" packageName in
  match downloadState with
  | Some ds =>
    match steps ds !! currentStep ds with
    | Some step =>
      (* currentStep < steps.length *)
      if negb initialRequest then
        (* [now] is read here and not used *)
        if (currentStep ds =? length (steps ds) - 1)%nat then
          if isUpdate then
            let targetVersion := targetVersion ds in
            let currentBranch := string_or (os_branch userFS) "stable" in
            match os_version userFS with
            | None => mkResult w userFS Thrown
            | Some _ =>
              let userFS := with_os_version targetVersion userFS in
              let w := saveToDB userId userFS w in
              let w := setDownloadStatus userId packageName None w in
              mkResult w userFS
                (Returned (Some (SystemUpdatedOn targetVersion currentBranch)))
            end
          else
            let currentVersion := string_or (content_of (os_version userFS)) "1.0.0" in
            let currentBranch := string_or (os_branch userFS) "stable" in
            let userFS :=
              with_pkg (packageName ++ ".pkg")
                (package_record packageName currentVersion currentBranch) userFS in
            let w := saveToDB userId userFS w in
            let w := setDownloadStatus userId packageName None w in
            mkResult w userFS (Returned (Some (PackageInstalled packageName)))
        else mkResult w userFS (Returned (Some (StepMessage (message step))))
      else mkResult w userFS (Returned (Some (StepMessage (message step))))
    | None =>
      (* the download is complete: remove the tracking *)
      let w := setDownloadStatus userId packageName None w in
      if isUpdate then mkResult w userFS (Returned (Some (SystemUpdated (targetVersion ds))))
      else mkResult w userFS (Returned (Some (PackageInstalled packageName)))
    end
  | None =>
    if initialRequest then
      if isUpdate then
        let targetVersion := default "" (split_on "-" packageName !! 1%nat) in
        let updateSize := getUpdateSize targetVersion in
        let steps := createDownloadSteps userId packageName (Some updateSize) in
        if is_instant steps then
          let currentBranch := string_or (os_branch userFS) "stable" in
          match os_version userFS with
          | None => mkResult w userFS Thrown
          | Some _ =>
            let userFS := with_os_version (Some targetVersion) userFS in
            let w := saveToDB userId userFS w in
            mkResult w userFS
              (Returned (Some (SystemUpdatedOn (Some targetVersion) currentBranch)))
          end
        else
          let w := setDownloadStatus userId packageName
                     (Some (mkDownloadState steps 0 now true (Some targetVersion))) w in
          match steps with
          | [] => mkResult w userFS Thrown
          | first :: _ =>
            mkResult w userFS (Returned (Some (StartedUpdate targetVersion (message first))))
          end
      else
        let packageSize := PACKAGE_SIZES !! packageName in
        let steps := createDownloadSteps userId packageName packageSize in
        if is_instant steps then
          let currentVersion := string_or (content_of (os_version userFS)) "1.0.0" in
          let currentBranch := string_or (root_os_branch userFS) "stable" in
          let userFS :=
            with_pkg (packageName ++ ".pkg")
              (package_record packageName currentVersion currentBranch) userFS in
          let w := saveToDB userId userFS w in
          mkResult w userFS (Returned (Some (InstalledPackage packageName)))
        else
          let w := setDownloadStatus userId packageName
                     (Some (mkDownloadState steps 0 now false None)) w in
          match steps with
          | [] => mkResult w userFS Thrown
          | first :: _ =>
            mkResult w userFS (Returned (Some (StartedDownload packageName (message first))))
          end
    else mkResult w userFS (Returned None)
  end.

(** [startUpdateDownload(userId, targetVersion)]: the new world and the
    state that was registered. *)
Definition startUpdateDownload (now : Z) (w : World) (userId : string)
    (targetVersion : option string) : World * DownloadState :=
  let updateSize := getUpdateSize (str targetVersion) in
  let steps :=
    createDownloadSteps userId ("update-" ++ str targetVersion) (Some updateSize) in
  let downloadState := mkDownloadState steps 0 now true targetVersion in
  (setDownloadStatus userId ("update-" ++ str targetVersion) (Some downloadState) w,
   downloadState).

(** Modelled from the spec: [loadFromDB] of db/utils, which is not among
    the sources; [load(table, key, default)] gives the stored value, or the
    default when there is none.  Here
    [loadFromDB("user_filesystems", userId, createFilesystem())]. *)
Definition loadFromDB (w : World) (userId : string) : UserFS :=
  default createFilesystem (user_filesystems w !! userId).

(** [pkg upgrade] once the target branch is known, on the loaded
    [userFS]. *)
Definition pkgUpgradeTo (now : Z) (w : World) (userId : string)
    (userFS : UserFS) (targetBranch : string) : World * Outcome :=
  let userFS :=
    match os_version userFS with
    | None => with_os_version (Some "1.0.0") userFS
    | Some _ => userFS
    end in
  let currentVersion := content_of (os_version userFS) in
  let currentBranch := default "" (os_branch userFS) in
  let targetVersion := osBranches !! targetBranch in
  if bool_decide (currentVersion = targetVersion) && String.eqb currentBranch targetBranch
  then (w, Returned (Some (AlreadyUpToDate targetBranch)))
  else
    (* Handle downgrade scenario *)
    let isDowngrade : option bool :=
      if String.eqb currentBranch "unstable" && String.eqb targetBranch "stable" then
        match currentVersion, targetVersion with
        | Some cv, Some tv => Some (0 <? compareVersions cv tv)%Z
        | _, _ => None          (* [split] of [undefined] *)
        end
      else Some false in
    match isDowngrade with
    | None => (w, Thrown)
    | Some isDowngrade =>
      (* Change branch first (even if version stays the same) *)
      let userFS := with_os_branch targetBranch userFS in
      let w := saveToDB userId userFS w in
      (* Start the update download with network simulation *)
      let '(w, downloadState) := startUpdateDownload now w userId targetVersion in
      match steps downloadState with
      | [] => (w, Thrown)
      | firstStep :: _ =>
        if isDowngrade then
          (w, Returned (Some (StartingDowngrade currentBranch currentVersion
                                targetBranch targetVersion (message firstStep))))
        else if bool_decide (currentVersion = targetVersion) then
          (w, Returned (Some (StartingSwitch targetVersion targetBranch (message firstStep))))
        else
          (w, Returned (Some (StartingUpgrade targetVersion targetBranch (message firstStep))))
      end
    end.

(** The branch [subcommand === "upgrade"] of [pkgCommand]. *)
Definition pkgUpgrade (now : Z) (w : World) (userId : string)
    (args : list string) (userFS : UserFS) : World * Outcome :=
  match List.find (String.prefix "--") args with
  | Some arg =>
    let branchArg := String.substring 2 (String.length arg - 2) arg in
    if String.eqb (string_or (osBranches !! branchArg) "") "" then
      (w, Returned (Some (UnknownBranch branchArg)))
    else pkgUpgradeTo now w userId userFS branchArg
  | None => pkgUpgradeTo now w userId userFS "stable"
  end.

(** [pkgCommand(userId, args)], called at time [now]. *)
Definition pkgCommand (now : Z) (w : World) (userId : string)
    (args : list string) : World * Outcome :=
  let subcommand := string_or (args !! 0%nat) "" in
  if String.eqb subcommand "" then (w, Returned (Some MissingSubcommand))
  else
    let userFS := loadFromDB w userId in
    (* Make sure os_branch exists *)
    let userFS :=
      match os_branch userFS with
      | None => with_os_branch "stable" userFS
      | Some _ => userFS
      end in
    if String.eqb subcommand "upgrade" then pkgUpgrade now w userId args userFS
    else
      let pkgDir := pkgs userFS in
      let currentVersion := string_or (content_of (os_version userFS)) "1.0.0" in
      let currentBranch := string_or (os_branch userFS) "stable" in
      if String.eqb subcommand "install" then
        let pkgName := string_or (args !! 1%nat) "" in
        if String.eqb pkgName "" then (w, Returned (Some UsageInstall))
        else
          match pkgDir !! (pkgName ++ ".pkg")%string with
          | Some _ => (w, Returned (Some (AlreadyInstalled pkgName)))
          | None =>
            if negb (isPackageAvailable pkgName currentVersion currentBranch) then
              match packageDefinitions !! pkgName with
              | Some d =>
                match minVersion_on d currentBranch with
                | Some minVersion =>
                  (w, Returned (Some (RequiresVersion pkgName currentBranch minVersion)))
                | None => (w, Returned (Some (NotOnBranch pkgName currentBranch)))
                end
              | None => (w, Returned (Some (PackageNotFound pkgName)))
              end
            else
              (* Cancel any existing download for this package *)
              let w := setDownloadStatus userId pkgName None w in
              let r := processDownload now w userId userFS pkgName true in
              (world r, outcome r)
          end
      else if String.eqb subcommand "remove" then
        let pkgName := string_or (args !! 1%nat) "" in
        if String.eqb pkgName "" then (w, Returned (Some UsageRemove))
        else
          (* Cancel any ongoing download *)
          let w := setDownloadStatus userId pkgName None w in
          match pkgDir !! (pkgName ++ ".pkg")%string with
          | None => (w, Returned (Some (RemoveNotFound pkgName)))
          | Some _ =>
            let userFS := without_pkg (pkgName ++ ".pkg") userFS in
            let w := saveToDB userId userFS w in
            (w, Returned (Some (RemovedPackage pkgName)))
          end
      else if String.eqb subcommand "status" then
        let pkgName := string_or (args !! 1%nat) "" in
        if String.eqb pkgName "" then (w, Returned (Some Listing))
        else
          match getDownloadStatus w userId pkgName with
          | Some ds =>
            match steps ds !! currentStep ds with
            | Some step => (w, Returned (Some (StepMessage (message step))))
            | None => (w, Thrown)
            end
          | None => (w, Returned (Some (NoDownloadFor pkgName)))
          end
      else if String.eqb subcommand "list" || String.eqb subcommand "search"
              || String.eqb subcommand "branches" then
        (w, Returned (Some Listing))
      else (w, Returned (Some InvalidSubcommand)).

End Pkg.

(** ** src/unnamed/part_000: the terminal commands (commands.js) *)

(** The body of the loop run by [netset], [netlatency], [netjitter] and
    [netloss] for each package after saving the configuration; [recalc] is
    [recalculateDownloadSteps] under the new configuration. *)
Definition recalculateActive
    (recalc : string -> option DownloadState -> option DownloadState)
    (w : World) (userId pkgName : string) : World :=
  match getDownloadStatus w userId pkgName with
  | Some ds =>
    if (currentStep ds <? length (steps ds))%nat then
      let updated := recalc pkgName (Some ds) in
      setDownloadStatus userId pkgName updated w
    else w
  | None => w
  end.

(** ** The closed forms of the duration

    [base_ms] is the transfer time of the size at the configured speed;
    [duration_formula] is the duration as the specification gives it, with
    the floor at [min(1000, sizeKB)]; [duration_no_floor] is the same
    without the floor. *)
Definition base_ms (cfg : Config) (sizeKB : Q) : Q :=
  sizeKB * 8 * 1024 / (speed cfg * 1000000) * 1000.

Definition duration_formula (cfg : Config) (sizeKB j : Q) : Z :=
  Math_round
    ((Qmax (base_ms cfg sizeKB) (Qmin 1000 sizeKB) + latency cfg + j)
     * (1 + packetLoss cfg / 100)).

Definition duration_no_floor (cfg : Config) (sizeKB j : Q) : Z :=
  Math_round ((base_ms cfg sizeKB + latency cfg + j) * (1 + packetLoss cfg / 100)).

(** ** Shapes of plans *)

(** Progress never decreases from a step to the next. *)
Definition nondecreasing (l : list Step) : Prop :=
  forall (i : nat) (a b : Step),
    l !! i = Some a -> l !! S i = Some b -> progress a <= progress b.

(** The steps before the final one are strictly increasing in progress. *)
Definition increasing_before_last (l : list Step) : Prop :=
  forall (i : nat) (a b : Step),
    (S (S i) < length l)%nat ->
    l !! i = Some a -> l !! S i = Some b -> progress a < progress b.

(** The final step is complete at 100%. *)
Definition ends_complete (l : list Step) : Prop :=
  exists s : Step, last l = Some s /\ progress s == 100 /\ complete s = true.

(** ** Sample data

    Configurations the setters of the terminal produce, the two packages
    of the [packages] directory, and a user in the middle of a download. *)

(** After [netlatency 0]. *)
Definition no_latency : Config :=
  {| speed := 500; latency := 0; packetLoss := 0; jitter := 0; enabled := true |}.

(** After [netset 10 kbps]. *)
Definition slow_link : Config :=
  {| speed := 1 # 100; latency := 20; packetLoss := 0; jitter := 0; enabled := true |}.

(** After [netset 1 mbps]. *)
Definition one_mbps : Config :=
  {| speed := 1; latency := 20; packetLoss := 0; jitter := 0; enabled := true |}.

(** After [nettoggle]. *)
Definition switched_off : Config :=
  {| speed := 1; latency := 20; packetLoss := 0; jitter := 0; enabled := false |}.

Definition half : nat -> Q := fun _ => 1 # 2.

(** packages/echo.js and packages/edit.js. *)
Definition sample_definitions : gmap string PackageDefinition :=
  {[ "echo" := mkPackageDefinition "1.0.0" "1.0.0";
     "edit" := mkPackageDefinition "1.0.0" "1.0.0" ]}.

Definition sample_sizes : gmap string Q := {[ "echo" := 472; "edit" := 8400 ]}.

(** [osBranches] when no update file names a branch. *)
Definition sample_branches : gmap string string :=
  {[ "stable" := "1.0.0.1"; "unstable" := "1.0.0.2" ]}.

(** A default tree with the directory and the two leaves under [sys]. *)
Definition sample_filesystem : UserFS :=
  {| pkgs := ∅; os_version := Some (Some "1.0.0"); os_branch := Some "stable";
     root_os_branch := None |}.

(** The network module of part_001 behind the package manager, at 1 Mbps. *)
Definition sample_createDownloadSteps (userId packageName : string)
    (packageSizeKB : option Q) : list Step :=
  Part001.createDownloadSteps one_mbps 0 packageName packageSizeKB.

(** The three steps of the 472 KB package at 1 Mbps. *)
Definition sample_plan : list Step :=
  sample_createDownloadSteps "42" "echo" (Some 472).

(** The user 42 has just started to download that package... *)
Definition sample_started : World :=
  {| activeDownloads :=
       {[ download_key "42" "echo" := mkDownloadState sample_plan 0 1000 false None ]};
     user_filesystems := {[ "42" := sample_filesystem ]};
     saves := [] |}.

(** ... or stands at the last step of it. *)
Definition sample_finishing : World :=
  {| activeDownloads :=
       {[ download_key "42" "echo" := mkDownloadState sample_plan 2 1000 false None ]};
     user_filesystems := {[ "42" := sample_filesystem ]};
     saves := [] |}.

(** The user 7 has the package installed. *)
Definition sample_installed : World :=
  {| activeDownloads := ∅;
     user_filesystems :=
       {[ "7" := with_pkg "echo.pkg" (package_record "echo" "1.0.0" "stable")
                   sample_filesystem ]};
     saves := [] |}.

(** ** The store of network configurations (both network modules)

    [networkConfigsCache], the in-memory [Map], in front of the table
    [user_network_configs] of the database. *)
Record NetStore := mkNetStore {
  networkConfigsCache : gmap string Config;
  user_network_configs : gmap string Config
}.

(** [getUserNetworkConfig(userId)]: the configuration, and the store with
    the cache filled.  ([loadFromDB] is modelled from the spec, as above:
    the stored value or the default.) *)
Definition getUserNetworkConfig (s : NetStore) (userId : string)
    : NetStore * Config :=
  match networkConfigsCache s !! userId with
  | Some config => (s, config)
  | None =>
    let networkConfig := default DEFAULT_CONFIG (user_network_configs s !! userId) in
    ({| networkConfigsCache := <[userId := networkConfig]> (networkConfigsCache s);
        user_network_configs := user_network_configs s |},
     networkConfig)
  end.

(** [saveUserNetworkConfig(userId, config)]. *)
Definition saveUserNetworkConfig (userId : string) (config : Config)
    (s : NetStore) : NetStore :=
  {| networkConfigsCache := <[userId := config]> (networkConfigsCache s);
     user_network_configs := <[userId := config]> (user_network_configs s) |}.

Definition with_speed (v : Q) (c : Config) : Config :=
  {| speed := v; latency := latency c; packetLoss := packetLoss c;
     jitter := jitter c; enabled := enabled c |}.




Definition with_enabled (b : bool) (c : Config) : Config :=
  {| speed := speed c; latency := latency c; packetLoss := packetLoss c;
     jitter := jitter c; enabled := b |}.

(** ** src/unnamed/part_000: the network commands and the polling block *)

(** What the network commands answer. *)
Inductive NetReply :=
| NetsetUsage
| InvalidSpeed
| UnknownUnit (unit : string)
| SpeedSet (value : Q) (unit : string) (speedInMbps : Q)
| ToggleReply (nowEnabled : bool)
| LatencyUsage
| InvalidLatency
| LatencySet (value : Q)
| JitterUsage
| InvalidJitter
| JitterSet (value : Q)
| LossUsage
| InvalidLoss
| LossSet (value : Q).


Section Commands.

(** The built-in functions [parseFloat] ([None] is [NaN]; the infinite
    values are not numbers of this model) and [toLowerCase]; the list
    [Object.keys(packageDefinitions)]; and [recalculateDownloadSteps] of
    the network module, under the configuration it finds in the cache. *)
Variable parseFloat : string -> option Q.
Variable toLowerCase : string -> string.
Variable pkgNames : list string.
Variable recalculate : Config -> string -> option DownloadState -> option DownloadState.



(** [nettoggle]. *)
Definition nettoggle (s : NetStore) (userId : string) : NetStore * NetReply :=
  let '(s, config) := getUserNetworkConfig s userId in
  let config := with_enabled (negb (enabled config)) config in
  let s := saveUserNetworkConfig userId config s in
  (s, ToggleReply (enabled config)).




End Commands.

Section Navigation.

Variable PACKAGE_SIZES : gmap string Q.
Variable UPDATE_SIZES : gmap string Q.
Variable createDownloadSteps : string -> string -> option Q -> list Step.
Variable createFilesystem : UserFS.

(** The loop "Check for ongoing downloads and update them" of [cd] and
    [ls], over the names left of [Object.keys(packageDefinitions)]; every
    call works on the same object [userFS2].  The flag tells whether a
    call has thrown, which ends the loop. *)
Fixpoint pollDownloads (now : Z) (w : World) (userId : string)
    (userFS2 : UserFS) (pkgNames : list string) : World * UserFS * bool :=
  match pkgNames with
  | [] => (w, userFS2, false)
  | pkgName :: rest =>
    match getDownloadStatus w userId pkgName with
    | Some _ =>
      let r := processDownload PACKAGE_SIZES UPDATE_SIZES createDownloadSteps
                 now w userId userFS2 pkgName false in
      match outcome r with
      | Thrown => (world r, userFS_after r, true)
      | Returned _ => pollDownloads now (world r) userId (userFS_after r) rest
      end
    | None => pollDownloads now w userId userFS2 rest
    end
  end.

(** The block as [cd] and [ls] run it: [userFS2] is loaded from the
    database first. *)
Definition pollOnNavigation (now : Z) (w : World) (userId : string)
    (pkgNames : list string) : World * UserFS * bool :=
  pollDownloads now w userId (loadFromDB createFilesystem w userId) pkgNames.

End Navigation.

(** ** More sample data *)




Definition empty_store : NetStore :=
  {| networkConfigsCache := ∅; user_network_configs := ∅ |}.

(** The time a plan asks to wait, all steps together. *)
Definition total_wait (l : list Step) : Q :=
  fold_right (fun s acc => wait s + acc) 0 l.


(** A user id without the separator of the registry keys. *)
Fixpoint colon_free (s : string) : bool :=
  match s with
  | EmptyString => true
  | String a rest => negb (Ascii.eqb a ":") && colon_free rest
  end.

(** The filesystem [pkgCommand] works on: the one loaded for the user,
    with the leaf [os_branch] made sure to exist. *)
Definition working_filesystem (createFilesystem : UserFS) (w : World)
    (userId : string) : UserFS :=
  let userFS := loadFromDB createFilesystem w userId in
  match os_branch userFS with
  | None => with_os_branch "stable" userFS
  | Some _ => userFS
  end.

(** The answer of [pkg install] for a package that is not available. *)
Definition unavailable_reply (packageDefinitions : gmap string PackageDefinition)
    (pkgName currentBranch : string) : Reply :=
  match packageDefinitions !! pkgName with
  | Some d =>
    match minVersion_on d currentBranch with
    | Some minVersion => RequiresVersion pkgName currentBranch minVersion
    | None => NotOnBranch pkgName currentBranch
    end
  | None => PackageNotFound pkgName
  end.

(** A package of 0.3 KB, and the network module of part_001 without
    latency, which plans no step for it. *)
Definition tiny_definitions : gmap string PackageDefinition :=
  {[ "tiny" := mkPackageDefinition "1.0.0" "1.0.0" ]}.

Definition tiny_sizes : gmap string Q := {[ "tiny" := 3 # 10 ]}.

Definition tiny_createDownloadSteps (userId packageName : string)
    (packageSizeKB : option Q) : list Step :=
  Part001.createDownloadSteps no_latency 0 packageName packageSizeKB.

(** The network module of part_001 with the simulation switched off. *)
Definition instant_createDownloadSteps (userId packageName : string)
    (packageSizeKB : option Q) : list Step :=
  Part001.createDownloadSteps switched_off 0 packageName packageSizeKB.

(** * Properties *)

Lemma Qltb_lt x y : Qltb x y = true <-> x < y.
Proof.
  unfold Qltb. rewrite negb_true_iff.
  split; intros H.
  - apply Qnot_le_lt. intros Hle. apply Qle_bool_iff in Hle. congruence.
  - destruct (Qle_bool y x) eqn:E; [|reflexivity].
    apply Qle_bool_iff in E. exfalso. apply (Qlt_not_le _ _ H E).
Qed.

Lemma Qltb_ge x y : Qltb x y = false <-> y <= x.
Proof.
  unfold Qltb. rewrite negb_false_iff. apply Qle_bool_iff.
Qed.

Lemma Math_round_comp x y : x == y -> Math_round x = Math_round y.
Proof. intros H. unfold Math_round. now rewrite H. Qed.

Lemma js_or_pos x b : 0 < x -> js_or (Some x) b = x.
Proof.
  intros H. unfold js_or, truthy.
  destruct (Qeq_bool x 0) eqn:E; [|reflexivity].
  apply Qeq_bool_iff in E. rewrite E in H. exfalso. revert H. apply Qlt_irrefl.
Qed.


(** Latency, jitter and packet loss, applied the same way by both modules. *)
Lemma conditions_applied cfg rj x :
  0 <= jitter cfg -> 0 <= packetLoss cfg ->
  (let downloadTime := x + latency cfg in
   let downloadTime :=
     if Qltb 0 (jitter cfg) then downloadTime + rj * jitter cfg else downloadTime in
   if Qltb 0 (packetLoss cfg) then downloadTime * (1 + packetLoss cfg / 100)
   else downloadTime)
  == (x + latency cfg + rj * jitter cfg) * (1 + packetLoss cfg / 100).
Proof.
  intros Hj Hp. cbv zeta.
  destruct (Qltb 0 (jitter cfg)) eqn:Ej; destruct (Qltb 0 (packetLoss cfg)) eqn:Ep.
  - reflexivity.
  - apply Qltb_ge in Ep.
    assert (packetLoss cfg == 0) as -> by (apply Qle_antisym; assumption). field.
  - apply Qltb_ge in Ej.
    assert (jitter cfg == 0) as -> by (apply Qle_antisym; assumption). ring.
  - apply Qltb_ge in Ep. apply Qltb_ge in Ej.
    assert (packetLoss cfg == 0) as -> by (apply Qle_antisym; assumption).
    assert (jitter cfg == 0) as -> by (apply Qle_antisym; assumption). field.
Qed.

(** part_001: the duration with the proportional floor. *)
Lemma part001_duration :
  forall (cfg : Config) (rj : Q) (name : string) (sizeKB : Q),
    valid_config cfg -> 0 < sizeKB ->
    let r := Part001.calculateDownloadTime cfg rj name (Some sizeKB) in
    size r = sizeKB /\
    (enabled cfg = false -> time r = 0%Z) /\
    (enabled cfg = true -> time r = duration_formula cfg sizeKB (rj * jitter cfg)).
Proof.
  intros cfg rj name sizeKB (Hs & Hl & Hj & Hp & Hp') Hsz r.
  subst r. unfold Part001.calculateDownloadTime.
  rewrite (js_or_pos _ _ Hsz).
  destruct (enabled cfg) eqn:En; simpl.
  - split; [reflexivity|]. split; [discriminate|]. intros _.
    unfold duration_formula. apply Math_round_comp.
    etransitivity; [exact (conditions_applied cfg rj _ Hj Hp)|].
    unfold base_ms. rewrite Q.max_comm. reflexivity.
  - split; [reflexivity|]. split; [reflexivity|discriminate].
Qed.

(** network.js: no floor, and a transfer under 30 ms counts as instant. *)
Lemma networkjs_duration :
  forall (cfg : Config) (rj : Q) (name : string),
    valid_config cfg ->
    let sizeKB := js_or (NetworkJs.PACKAGE_SIZES name) 1024 in
    let r := NetworkJs.calculateDownloadTime cfg rj name in
    size r = sizeKB /\
    (enabled cfg = false -> time r = 0%Z) /\
    (enabled cfg = true -> base_ms cfg sizeKB < 30 -> time r = 0%Z) /\
    (enabled cfg = true -> 30 <= base_ms cfg sizeKB ->
     time r = duration_no_floor cfg sizeKB (rj * jitter cfg)).
Proof.
  intros cfg rj name (Hs & Hl & Hj & Hp & Hp') sizeKB r.
  subst r. unfold NetworkJs.calculateDownloadTime. fold sizeKB.
  change (sizeKB * 8 * 1024 / (speed cfg * 1000000) * 1000) with (base_ms cfg sizeKB).
  destruct (enabled cfg) eqn:En; simpl.
  - destruct (Qltb (base_ms cfg sizeKB) 30) eqn:E; simpl.
    + split; [reflexivity|]. split; [discriminate|]. split; [reflexivity|].
      intros _ Hge. apply Qltb_lt in E. exfalso. apply (Qlt_not_le _ _ E Hge).
    + split; [reflexivity|]. split; [discriminate|]. split.
      * intros _ Hlt. apply Qltb_ge in E. exfalso. apply (Qlt_not_le _ _ Hlt E).
      * intros _ _. unfold duration_no_floor. apply Math_round_comp.
        exact (conditions_applied cfg rj _ Hj Hp).
  - split; [reflexivity|]. split; [reflexivity|]. split; discriminate.
Qed.


Lemma one_mbps_valid : valid_config one_mbps.
Proof. unfold valid_config; simpl. repeat split; discriminate. Qed.

Lemma DEFAULT_CONFIG_valid : valid_config DEFAULT_CONFIG.
Proof. unfold valid_config; simpl. repeat split; discriminate. Qed.


(** The example of the specification: 472 KB at 500 Mbps with 20 ms of
    latency lasts 492 ms under the proportional floor. *)
Example part001_echo_default_time :
  time (Part001.calculateDownloadTime DEFAULT_CONFIG 0 "echo" (Some 472)) = 492%Z.
Proof. reflexivity. Qed.


(** ** Arithmetic helpers *)

Lemma num_S i : num (S i) == num i + 1.
Proof.
  unfold num. rewrite Nat2Z.inj_succ. unfold Z.succ.
  rewrite inject_Z_plus. reflexivity.
Qed.

Lemma num_nonneg i : 0 <= num i.
Proof.
  unfold num. change 0 with (inject_Z 0). rewrite <- Zle_Qle. lia.
Qed.

Lemma num_le i j : (i <= j)%nat -> num i <= num j.
Proof. intros H. unfold num. rewrite <- Zle_Qle. lia. Qed.

Lemma pct_mono sz a b : 0 < sz -> a <= b -> a / sz * 100 <= b / sz * 100.
Proof.
  intros Hsz Hab. apply Qmult_le_compat_r; [|discriminate].
  unfold Qdiv. apply Qmult_le_compat_r; [assumption|].
  apply Qinv_le_0_compat. now apply Qlt_le_weak.
Qed.

Lemma pct_strict sz a b : 0 < sz -> a < b -> a / sz * 100 < b / sz * 100.
Proof.
  intros Hsz Hab. apply Qmult_lt_compat_r; [reflexivity|].
  unfold Qdiv. apply Qmult_lt_compat_r; [|assumption].
  now apply Qinv_lt_0_compat.
Qed.

Lemma pct_full sz : 0 < sz -> sz / sz * 100 == 100.
Proof. intros Hsz. field. intros E. rewrite E in Hsz. revert Hsz. apply Qlt_irrefl. Qed.

Lemma Qdiv_pos a b : 0 <= a -> 0 < b -> 0 <= a / b.
Proof.
  intros Ha Hb. unfold Qdiv. apply Qmult_le_0_compat; [assumption|].
  apply Qinv_le_0_compat. now apply Qlt_le_weak.
Qed.

(** The sizes known to the network modules are positive. *)
Lemma net_size_pos name : 0 < js_or (NET_PACKAGE_SIZES name) 1024.
Proof.
  unfold NET_PACKAGE_SIZES.
  repeat (match goal with |- context [String.eqb ?a ?b] => destruct (String.eqb a b) end;
          [reflexivity|]).
  reflexivity.
Qed.

(** ** Lists built by a counting loop *)

Lemma lookup_loop {A} (f : nat -> A) (s n i : nat) (x : A) :
  (f <$> seq s n) !! i = Some x -> (i < n)%nat /\ x = f (s + i)%nat.
Proof.
  rewrite list_lookup_fmap. intros H.
  destruct (seq s n !! i) as [k|] eqn:E; simpl in H; [|discriminate].
  apply lookup_seq in E as [-> Hlt]. split; [assumption|congruence].
Qed.

Lemma last_loop {A} (f : nat -> A) (s n : nat) :
  last (f <$> seq s (S n)) = Some (f (s + n)%nat).
Proof.
  rewrite seq_S, fmap_app. simpl. apply last_snoc.
Qed.

Lemma length_loop {A} (f : nat -> A) (s n : nat) :
  length (f <$> seq s n) = n.
Proof. rewrite length_fmap. apply length_seq. Qed.

(** ** The plans of network.js *)

Section NetworkJsPlan.

Variables (rw : nat -> Q) (name : string) (t : Z) (sz : Q) (n : Z).
Hypothesis Hsz : 0 < sz.
Hypothesis Ht : (0 < t)%Z.

Local Abbreviation step := (NetworkJs.createStep rw name t sz n).

Lemma tQ_pos : 0 < inject_Z t.
Proof. change 0 with (inject_Z 0). rewrite <- Zlt_Qlt. exact Ht. Qed.

Lemma networkjs_progress_final i :
  Z.of_nat i = (n - 1)%Z -> progress (step i) == 100 /\ complete (step i) = true.
Proof.
  intros E. unfold NetworkJs.createStep; simpl.
  rewrite (proj2 (Z.eqb_eq _ _) E). split; [now apply pct_full|reflexivity].
Qed.

Lemma networkjs_progress_inner i :
  Z.of_nat i <> (n - 1)%Z ->
  progress (step i)
  == Qmin sz (sz / inject_Z t * (num i * updateInterval)) / sz * 100.
Proof.
  intros E. unfold NetworkJs.createStep; simpl.
  rewrite (proj2 (Z.eqb_neq _ _) E). reflexivity.
Qed.

Lemma networkjs_elapsed_mono i j :
  (i <= j)%nat ->
  sz / inject_Z t * (num i * updateInterval)
  <= sz / inject_Z t * (num j * updateInterval).
Proof.
  intros Hij. pose proof tQ_pos as Htq.
  rewrite !(Qmult_comm (sz / inject_Z t)).
  apply Qmult_le_compat_r.
  - apply Qmult_le_compat_r; [now apply num_le|discriminate].
  - apply Qdiv_pos; [now apply Qlt_le_weak|assumption].
Qed.

Lemma networkjs_loop_nondecreasing :
  nondecreasing (step <$> seq 0 (Z.to_nat n)).
Proof.
  intros i a b Ha Hb.
  apply lookup_loop in Ha as [Hi ->]. apply lookup_loop in Hb as [HSi ->].
  rewrite !Nat.add_0_l. destruct (Z.eq_dec (Z.of_nat (S i)) (n - 1)%Z) as [E|E].
  - rewrite (proj1 (networkjs_progress_final _ E)).
    rewrite networkjs_progress_inner by lia.
    rewrite <- (pct_full sz Hsz) at 2.
    apply pct_mono; [assumption|apply Q.le_min_l].
  - rewrite !networkjs_progress_inner by lia.
    apply pct_mono; [assumption|].
    apply Q.min_le_compat_l. apply networkjs_elapsed_mono. lia.
Qed.

Lemma networkjs_loop_ends_complete :
  (1 <= n)%Z -> ends_complete (step <$> seq 0 (Z.to_nat n)).
Proof.
  intros Hn. replace (Z.to_nat n) with (S (Z.to_nat (n - 1)%Z)) by lia.
  exists (step (0 + Z.to_nat (n - 1)%Z)%nat). split; [apply last_loop|].
  apply networkjs_progress_final. rewrite Nat.add_0_l. lia.
Qed.

(** Before the final step the cap at the full size is not reached, as
    long as the step count is the one chosen by [createDownloadSteps]. *)
Lemma networkjs_loop_increasing :
  n = Z.max 3 (Math_ceil (inject_Z t / updateInterval)) ->
  increasing_before_last (step <$> seq 0 (Z.to_nat n)).
Proof.
  intros Hn i a b Hlen Ha Hb.
  rewrite length_loop in Hlen.
  apply lookup_loop in Ha as [Hi ->]. apply lookup_loop in Hb as [HSi ->].
  rewrite !Nat.add_0_l. rewrite !networkjs_progress_inner by lia.
  pose proof tQ_pos as Htq.
  assert (Hlt : num i * updateInterval < inject_Z t).
  { destruct (Z.max_spec 3 (Math_ceil (inject_Z t / updateInterval))) as [[Hc Hm]|[Hc Hm]].
    - pose proof (Qceiling_lt (inject_Z t / updateInterval)) as Hq.
      unfold Math_ceil in *. rewrite <- Hn in Hm. rewrite <- Hm in Hq.
      assert (num i + 1 <= inject_Z (n - 1)%Z) as Hi1.
      { rewrite <- num_S. unfold num. rewrite <- Zle_Qle. lia. }
      assert (num i + 1 < inject_Z t / updateInterval) as Hi2
        by (eapply Qle_lt_trans; eassumption).
      apply (Qmult_lt_compat_r _ _ updateInterval) in Hi2; [|reflexivity].
      unfold updateInterval in *.
      assert (Ed : inject_Z t / 1500 * 1500 == inject_Z t) by field.
      rewrite Ed in Hi2. pose proof (num_nonneg i). lra.
    - assert (i = 0%nat) as -> by lia.
      unfold num; simpl. rewrite Qmult_0_l. assumption. }
  apply pct_strict; [assumption|].
  assert (Hk : 0 < sz / inject_Z t).
  { unfold Qdiv. apply Qmult_lt_0_compat; [assumption|now apply Qinv_lt_0_compat]. }
  assert (Hx : sz / inject_Z t * (num i * updateInterval) < sz).
  { assert (Ed : sz / inject_Z t * inject_Z t == sz)
      by (field; intros E; rewrite E in Htq; revert Htq; apply Qlt_irrefl).
    rewrite <- Ed at 2.
    rewrite !(Qmult_comm (sz / inject_Z t)).
    now apply Qmult_lt_compat_r. }
  assert (Hy : sz / inject_Z t * (num i * updateInterval)
               < sz / inject_Z t * (num (S i) * updateInterval)).
  { rewrite !(Qmult_comm (sz / inject_Z t)).
    apply Qmult_lt_compat_r; [assumption|].
    apply Qmult_lt_compat_r; [reflexivity|].
    rewrite num_S. lra. }
  rewrite (proj2 (Q.min_r_iff _ _)) by now apply Qlt_le_weak.
  apply Q.min_glb_lt; assumption.
Qed.

End NetworkJsPlan.

Lemma instant_plan_shape sz :
  [instantStep sz] <> [] /\ ends_complete [instantStep sz] /\
  nondecreasing [instantStep sz] /\ increasing_before_last [instantStep sz].
Proof.
  split; [discriminate|]. split.
  - exists (instantStep sz). repeat split; reflexivity.
  - split.
    + intros i a b _ Hb. destruct i; discriminate.
    + intros i a b _ _ Hb. destruct i; discriminate.
Qed.

Lemma networkjs_body_shape cfg rw name t sz :
  0 < sz ->
  let plan := NetworkJs.createDownloadSteps_body cfg rw name t sz in
  plan <> [] /\ ends_complete plan /\ nondecreasing plan /\
  increasing_before_last plan.
Proof.
  intros Hsz plan. subst plan. unfold NetworkJs.createDownloadSteps_body.
  destruct (Z.eqb t 0 || negb (enabled cfg) || Z.ltb t 100) eqn:E.
  - apply instant_plan_shape.
  - apply orb_false_iff in E as [E Hlt]. apply Z.ltb_ge in Hlt.
    assert (Ht : (0 < t)%Z) by lia.
    set (n := Z.max 3 (Math_ceil (inject_Z t / updateInterval))).
    assert (Hn : (3 <= n)%Z) by (subst n; lia).
    split; [|split; [|split]].
    + intros Hnil. apply (f_equal length) in Hnil.
      rewrite length_loop in Hnil. simpl in Hnil. lia.
    + apply networkjs_loop_ends_complete; (assumption || lia).
    + apply networkjs_loop_nondecreasing; assumption.
    + apply networkjs_loop_increasing; (assumption || reflexivity).
Qed.

(** ** The plans of part_001 *)

Lemma Math_round_mono x y : x <= y -> (Math_round x <= Math_round y)%Z.
Proof.
  intros H. unfold Math_round. apply Qfloor_resp_le. lra.
Qed.

Section Part001Plan.

Variables (name : string) (t : Z) (sz : Q) (n : Z).
Hypothesis Ht : (0 < t)%Z.

Local Abbreviation step1 := (Part001.createStep name t sz n).

Lemma part001_progress_last i :
  Z.of_nat i = n -> progress (step1 i) == 100 /\ complete (step1 i) = true.
Proof.
  intros E. unfold Part001.createStep; simpl.
  rewrite (proj2 (Z.eqb_eq _ _) E). split; reflexivity.
Qed.

Lemma part001_progress_inner i :
  Z.of_nat i <> n ->
  progress (step1 i)
  == inject_Z (Math_round
       (Qmin (inject_Z t) (num i * updateInterval) / inject_Z t * 100 * 10)) / 10.
Proof.
  intros E. unfold Part001.createStep; simpl.
  rewrite (proj2 (Z.eqb_neq _ _) E). reflexivity.
Qed.

Lemma part001_scaled_mono a b :
  a <= b ->
  inject_Z (Math_round (a / inject_Z t * 100 * 10)) / 10
  <= inject_Z (Math_round (b / inject_Z t * 100 * 10)) / 10.
Proof.
  intros Hab. pose proof (tQ_pos t Ht) as Htq.
  unfold Qdiv at 1 3. apply Qmult_le_compat_r; [|discriminate].
  rewrite <- Zle_Qle. apply Math_round_mono.
  apply Qmult_le_compat_r; [|discriminate].
  now apply pct_mono.
Qed.

Lemma part001_inner_le_100 i :
  inject_Z (Math_round
    (Qmin (inject_Z t) (num i * updateInterval) / inject_Z t * 100 * 10)) / 10
  <= 100.
Proof.
  pose proof (tQ_pos t Ht) as Htq.
  eapply Qle_trans.
  - apply (part001_scaled_mono _ (inject_Z t)). apply Q.le_min_l.
  - assert (E : inject_Z t / inject_Z t * 100 * 10 == 1000).
    { field. intros E. rewrite E in Htq. revert Htq. apply Qlt_irrefl. }
    rewrite (Math_round_comp _ _ E). discriminate.
Qed.

Lemma part001_loop_nondecreasing :
  nondecreasing (step1 <$> seq 1 (Z.to_nat n)).
Proof.
  intros i a b Ha Hb.
  apply lookup_loop in Ha as [Hi ->]. apply lookup_loop in Hb as [HSi ->].
  destruct (Z.eq_dec (Z.of_nat (1 + S i)) n) as [E|E].
  - rewrite (proj1 (part001_progress_last _ E)).
    rewrite part001_progress_inner by lia. apply part001_inner_le_100.
  - rewrite !part001_progress_inner by lia.
    apply part001_scaled_mono. apply Q.min_le_compat_l.
    apply Qmult_le_compat_r; [apply num_le; lia|discriminate].
Qed.

Lemma part001_loop_ends_complete :
  (1 <= n)%Z -> ends_complete (step1 <$> seq 1 (Z.to_nat n)).
Proof.
  intros Hn. replace (Z.to_nat n) with (S (Z.to_nat (n - 1)%Z)) by lia.
  exists (step1 (1 + Z.to_nat (n - 1)%Z)%nat). split; [apply last_loop|].
  apply part001_progress_last. lia.
Qed.

End Part001Plan.

Lemma ceil_pos_ge_1 (t : Z) :
  (0 < t)%Z -> (1 <= Math_ceil (inject_Z t / updateInterval))%Z.
Proof.
  intros Ht. pose proof (Qle_ceiling (inject_Z t / updateInterval)) as H.
  pose proof (tQ_pos t Ht) as Htq.
  assert (0 < inject_Z t / updateInterval) as Hp.
  { unfold Qdiv. apply Qmult_lt_0_compat; [assumption|reflexivity]. }
  unfold Math_ceil.
  assert (0 < inject_Z (Qceiling (inject_Z t / updateInterval))) as Hc
    by (eapply Qlt_le_trans; eassumption).
  change 0 with (inject_Z 0) in Hc. rewrite <- Zlt_Qlt in Hc. lia.
Qed.

(** In part_001 a plan has the same shape as soon as the computed duration
    is at least 1 ms; progress is rounded to one decimal there, so the
    steps before the final one are only non-decreasing. *)
Lemma part001_plan_shape cfg rj name sizeKB :
  (1 <= time (Part001.calculateDownloadTime cfg rj name
               (Some (js_or sizeKB (js_or (Part001.PACKAGE_SIZES name) 1024)))))%Z ->
  let plan := Part001.createDownloadSteps cfg rj name sizeKB in
  plan <> [] /\ ends_complete plan /\ nondecreasing plan.
Proof.
  intros Ht plan. subst plan. unfold Part001.createDownloadSteps.
  destruct (negb (enabled cfg)).
  - pose proof (instant_plan_shape
                  (js_or sizeKB (js_or (Part001.PACKAGE_SIZES name) 1024))) as H.
    tauto.
  - set (t := time _) in *.
    assert (H0 : (0 < t)%Z) by lia.
    pose proof (ceil_pos_ge_1 t H0) as Hn.
    split; [|split].
    + intros Hnil. apply (f_equal length) in Hnil.
      rewrite length_loop in Hnil. simpl in Hnil. lia.
    + apply part001_loop_ends_complete; assumption.
    + apply part001_loop_nondecreasing; assumption.
Qed.

(** In part_001 a size of at least 1 KB lasts at least 1 ms. *)
Lemma part001_time_pos cfg rj name sz :
  valid_config cfg -> enabled cfg = true -> 0 <= rj -> 1 <= sz ->
  (1 <= time (Part001.calculateDownloadTime cfg rj name (Some sz)))%Z.
Proof.
  intros Hv En Hr Hsz.
  assert (Hpos : 0 < sz) by lra.
  destruct (part001_duration cfg rj name sz Hv Hpos) as (_ & _ & Ht).
  rewrite (Ht En). destruct Hv as (Hs & Hl & Hj & Hp & Hp').
  unfold duration_formula, Math_round.
  change (Qfloor 1 <= Qfloor ((Qmax (base_ms cfg sz) (Qmin 1000 sz) + latency cfg
                                + rj * jitter cfg) * (1 + packetLoss cfg / 100)
                               + (1 # 2)))%Z.
  apply Qfloor_resp_le.
  assert (Hm : 1 <= Qmax (base_ms cfg sz) (Qmin 1000 sz)).
  { eapply Qle_trans; [|apply Q.le_max_r]. apply Q.min_glb; [discriminate|assumption]. }
  assert (Hjit : 0 <= rj * jitter cfg) by now apply Qmult_le_0_compat.
  assert (Hf : 0 <= packetLoss cfg / 100)
    by (apply Qle_shift_div_l; [reflexivity|lra]).
  set (a := Qmax _ _) in *. set (f := packetLoss cfg / 100) in *.
  set (j := rj * jitter cfg) in *. clearbody a f j.
  assert (Hprod : 0 <= (a + latency cfg + j) * f)
    by (apply Qmult_le_0_compat; lra).
  lra.
Qed.

(** In part_001 a size under half a KB with no latency rounds to a duration
    of 0 ms, and the loop produces no step at all. *)
Example part001_empty_plan :
  Part001.createDownloadSteps no_latency 0 "tiny" (Some (3 # 10)) = [].
Proof. reflexivity. Qed.

(** In part_001 the 8400 KB package at 10 kbps has 4588 steps, and the
    first two both show 0.0%. *)
Example part001_not_increasing :
  ~ increasing_before_last (Part001.createDownloadSteps slow_link 0 "edit" (Some 8400)).
Proof.
  assert (Hplan : Part001.createDownloadSteps slow_link 0 "edit" (Some 8400)
                  = Part001.createStep "edit" 6881300 8400 4588 <$> seq 1 4588).
  { unfold Part001.createDownloadSteps.
    replace (js_or (Some 8400) (js_or (Part001.PACKAGE_SIZES "edit") 1024))
      with 8400 by reflexivity.
    replace (time (Part001.calculateDownloadTime slow_link 0 "edit" (Some 8400)))
      with 6881300%Z by (vm_compute; reflexivity).
    replace (Math_ceil (inject_Z 6881300 / updateInterval))
      with 4588%Z by (vm_compute; reflexivity).
    reflexivity. }
  rewrite Hplan. intros H.
  specialize (H 0%nat (Part001.createStep "edit" 6881300 8400 4588 1)
                (Part001.createStep "edit" 6881300 8400 4588 2)).
  rewrite length_loop in H.
  assert (Hlt : progress (Part001.createStep "edit" 6881300 8400 4588 1)
                < progress (Part001.createStep "edit" 6881300 8400 4588 2)).
  { apply H.
    - lia.
    - rewrite list_lookup_fmap, lookup_seq_lt by lia. reflexivity.
    - rewrite list_lookup_fmap, lookup_seq_lt by lia. reflexivity. }
  vm_compute in Hlt. discriminate Hlt.
Qed.

(** C2, as the code has it: in network.js [createDownloadSteps] returns,
    for every package and every profile (and the step generator for every
    size and duration), a non-empty plan whose final step is complete at
    progress 100, whose progress never decreases from a step to the next,
    and whose steps before the final one are strictly increasing.  In
    part_001 it returns, for every size of at least 1 KB and every profile,
    a non-empty plan whose final step is complete at progress 100 and whose
    progress never decreases; progress is rounded to one decimal there, so
    the steps before the final one need not be strictly increasing. *)
Theorem createDownloadSteps_plan_shape :
  (forall (cfg : Config) (rw : nat -> Q) (name : string) (t : Z) (sz : Q),
      0 < sz ->
      let plan := NetworkJs.createDownloadSteps_body cfg rw name t sz in
      plan <> [] /\ ends_complete plan /\ nondecreasing plan /\
      increasing_before_last plan) /\
  (forall (cfg : Config) (rj : Q) (rw : nat -> Q) (name : string),
      valid_config cfg ->
      let plan := NetworkJs.createDownloadSteps cfg rj rw name in
      plan <> [] /\ ends_complete plan /\ nondecreasing plan /\
      increasing_before_last plan) /\
  (forall (cfg : Config) (rj : Q) (name : string) (sizeKB : Q),
      valid_config cfg -> 0 <= rj -> 1 <= sizeKB ->
      let plan := Part001.createDownloadSteps cfg rj name (Some sizeKB) in
      plan <> [] /\ ends_complete plan /\ nondecreasing plan).
Proof.
  split; [|split].
  - intros cfg rw name t sz Hsz. now apply networkjs_body_shape.
  - intros cfg rj rw name _. unfold NetworkJs.createDownloadSteps.
    apply networkjs_body_shape.
    unfold NetworkJs.calculateDownloadTime.
    destruct (negb (enabled cfg)); [apply net_size_pos|].
    match goal with |- context [Qltb ?a ?b] => destruct (Qltb a b) end;
      apply net_size_pos.
  - intros cfg rj name sizeKB Hv Hr Hsz plan. subst plan.
    assert (Hpos : 0 < sizeKB) by lra.
    destruct (enabled cfg) eqn:En.
    + apply part001_plan_shape.
      rewrite (js_or_pos _ _ Hpos). now apply part001_time_pos.
    + unfold Part001.createDownloadSteps. rewrite En. simpl negb. cbv iota.
      pose proof (instant_plan_shape
                    (js_or (Some sizeKB) (js_or (Part001.PACKAGE_SIZES name) 1024))).
      tauto.
Qed.

Lemma createDownloadSteps_plan_shape_witness :
  (let plan :=
     NetworkJs.createDownloadSteps_body DEFAULT_CONFIG half "echo" 3887 472 in
   plan <> [] /\ ends_complete plan /\ nondecreasing plan /\
   increasing_before_last plan) /\
  (let plan := NetworkJs.createDownloadSteps one_mbps 0 half "echo" in
   plan <> [] /\ ends_complete plan /\ nondecreasing plan /\
   increasing_before_last plan) /\
  (let plan := Part001.createDownloadSteps one_mbps 0 "echo" (Some 472) in
   plan <> [] /\ ends_complete plan /\ nondecreasing plan).
Proof.
  destruct createDownloadSteps_plan_shape as (H1 & H2 & H3).
  split; [|split].
  - apply H1. reflexivity.
  - apply H2. exact one_mbps_valid.
  - apply H3.
    + exact one_mbps_valid.
    + discriminate.
    + discriminate.
Defined.

(** The claim does not hold of part_001 as it stands: the 8400 KB package
    at 10 kbps has steps before the final one that are not strictly
    increasing, and a size of 0.3 KB without latency gets no step at all. *)
Lemma part001_plan_not_as_claimed :
  ~ increasing_before_last
      (Part001.createDownloadSteps slow_link 0 "edit" (Some 8400)) /\
  Part001.createDownloadSteps no_latency 0 "tiny" (Some (3 # 10)) = [].
Proof. split; [exact part001_not_increasing|exact part001_empty_plan]. Qed.

(** ** The number of steps *)

Lemma networkjs_body_length cfg rw name t sz :
  enabled cfg = true -> (100 <= t)%Z ->
  length (NetworkJs.createDownloadSteps_body cfg rw name t sz)
  = Z.to_nat (Z.max 3 (Math_ceil (inject_Z t / updateInterval))).
Proof.
  intros En Ht. unfold NetworkJs.createDownloadSteps_body.
  rewrite En. simpl negb. rewrite orb_false_r.
  replace (Z.eqb t 0) with false by (symmetry; apply Z.eqb_neq; lia).
  replace (Z.ltb t 100) with false by (symmetry; apply Z.ltb_ge; lia).
  simpl. apply length_loop.
Qed.

Lemma part001_length cfg rj name sizeKB :
  enabled cfg = true ->
  let sz := js_or sizeKB (js_or (Part001.PACKAGE_SIZES name) 1024) in
  let t := time (Part001.calculateDownloadTime cfg rj name (Some sz)) in
  length (Part001.createDownloadSteps cfg rj name sizeKB)
  = Z.to_nat (Math_ceil (inject_Z t / updateInterval)).
Proof.
  intros En sz t. unfold Part001.createDownloadSteps. rewrite En. simpl negb.
  cbv iota. apply length_loop.
Qed.

(** C3, as the code has it: in network.js a fresh synthesis over an enabled
    profile with a duration of at least 100 ms has exactly
    [max(3, ceil(duration / 1500))] steps, while part_001 has no minimum
    and produces [ceil(duration / 1500)] steps.  The 472 KB package under
    the default profile gets, in network.js, the duration 0 (its 7.7 ms are
    under the 30 ms cut) and the single instant step, and in part_001 the
    duration 492 ms and a single step. *)
Theorem step_count_by_module :
  (forall (cfg : Config) (rw : nat -> Q) (name : string) (t : Z) (sz : Q),
      enabled cfg = true -> (100 <= t)%Z ->
      length (NetworkJs.createDownloadSteps_body cfg rw name t sz)
      = Z.to_nat (Z.max 3 (Math_ceil (inject_Z t / updateInterval)))) /\
  (forall (cfg : Config) (rj : Q) (name : string) (sizeKB : option Q),
      valid_config cfg -> enabled cfg = true ->
      length (Part001.createDownloadSteps cfg rj name sizeKB)
      = Z.to_nat (Math_ceil
          (inject_Z (time (Part001.calculateDownloadTime cfg rj name
             (Some (js_or sizeKB (js_or (Part001.PACKAGE_SIZES name) 1024)))))
           / updateInterval))) /\
  (forall (rj : Q) (rw : nat -> Q),
      time (NetworkJs.calculateDownloadTime DEFAULT_CONFIG rj "echo") = 0%Z /\
      NetworkJs.createDownloadSteps DEFAULT_CONFIG rj rw "echo" = [instantStep 472] /\
      time (Part001.calculateDownloadTime DEFAULT_CONFIG rj "echo" (Some 472)) = 492%Z /\
      length (Part001.createDownloadSteps DEFAULT_CONFIG rj "echo" (Some 472)) = 1%nat).
Proof.
  split; [|split].
  - intros. now apply networkjs_body_length.
  - intros. now apply part001_length.
  - intros rj rw. repeat split.
Qed.

(** At 492 ms the step generator of network.js does produce 3 steps. *)
Lemma step_count_by_module_witness :
  length (NetworkJs.createDownloadSteps_body DEFAULT_CONFIG (fun _ => 1 # 2) "echo" 492 472)
  = Z.to_nat (Z.max 3 (Math_ceil (inject_Z 492 / updateInterval))).
Proof.
  apply (proj1 step_count_by_module); [reflexivity|discriminate].
Defined.

(** The example of the specification fails in both modules: no call of
    [createDownloadSteps] for the 472 KB package under the default profile
    returns 3 steps. *)
Lemma example_472_not_three_steps :
  length (NetworkJs.createDownloadSteps DEFAULT_CONFIG 0 (fun _ => 1 # 2) "echo") <> 3%nat /\
  time (NetworkJs.calculateDownloadTime DEFAULT_CONFIG 0 "echo") <> 492%Z /\
  length (Part001.createDownloadSteps DEFAULT_CONFIG 0 "echo" (Some 472)) <> 3%nat.
Proof.
  split; [|split]; intros H; vm_compute in H; discriminate H.
Qed.

(** ** compareVersions *)

Lemma part_or_0_spec v i :
  part_or_0 (Number <$> split_on "." v) i
  = default 0%Z (components v !! i).
Proof.
  unfold part_or_0, components. rewrite !list_lookup_fmap.
  destruct (split_on "." v !! i) as [s|]; simpl; [|reflexivity].
  destruct (Number s); reflexivity.
Qed.

Lemma padded_lookup n l i :
  (i < n)%nat -> (length l <= n)%nat ->
  padded n l !! i = Some (default 0%Z (l !! i)).
Proof.
  intros Hi Hl. unfold padded.
  destruct (le_lt_dec (length l) i) as [Hge|Hlt].
  - rewrite lookup_app_r by assumption.
    rewrite (lookup_ge_None_2 l i) by assumption. simpl.
    apply lookup_replicate_2. lia.
  - rewrite lookup_app_l by assumption.
    destruct (lookup_lt_is_Some_2 l i Hlt) as [x ->]. reflexivity.
Qed.

Lemma padded_length n l : (length l <= n)%nat -> length (padded n l) = n.
Proof.
  intros H. unfold padded. rewrite length_app, length_replicate. lia.
Qed.

(** The comparison of two lists of equal length, read by index. *)
Lemma lex_compare_drop (l1 l2 : list Z) (p1 p2 : list (option Z)) i todo :
  length l1 = (i + todo)%nat -> length l2 = (i + todo)%nat ->
  (forall j, (j < i + todo)%nat ->
     l1 !! j = Some (part_or_0 p1 j) /\ l2 !! j = Some (part_or_0 p2 j)) ->
  compareFrom p1 p2 i todo = lex_compare (drop i l1) (drop i l2).
Proof.
  revert i. induction todo as [|todo IH]; intros i H1 H2 H.
  - rewrite !drop_ge by lia. reflexivity.
  - destruct (H i ltac:(lia)) as [Ha Hb].
    rewrite (drop_S _ _ _ Ha), (drop_S _ _ _ Hb). simpl.
    destruct (Z.compare_spec (part_or_0 p1 i) (part_or_0 p2 i)) as [E|E|E];
      destruct (Z.gtb_spec (part_or_0 p1 i) (part_or_0 p2 i));
      destruct (Z.ltb_spec (part_or_0 p1 i) (part_or_0 p2 i));
      try lia; try reflexivity.
    apply IH; try lia. intros j Hj. apply H. lia.
Qed.


Lemma lex_compare_antisym l1 l2 :
  lex_compare l2 l1 = (- lex_compare l1 l2)%Z.
Proof.
  revert l2. induction l1 as [|a l1 IH]; intros [|b l2]; simpl; try reflexivity.
  rewrite (Z.compare_antisym a b). destruct (a ?= b)%Z; simpl; auto.
Qed.



Lemma compareVersions_refines a b : compareVersions a b = compareVersions_spec a b.
Proof.
  unfold compareVersions, compareVersions_spec.
  assert (La : length (components a) = length (Number <$> split_on "." a))
    by (unfold components; now rewrite !length_fmap).
  assert (Lb : length (components b) = length (Number <$> split_on "." b))
    by (unfold components; now rewrite !length_fmap).
  rewrite La, Lb.
  set (n := Nat.max _ _).
  rewrite (lex_compare_drop (padded n (components a)) (padded n (components b))
             _ _ 0 n).
  - reflexivity.
  - apply padded_length. lia.
  - apply padded_length. lia.
  - intros j Hj. rewrite !part_or_0_spec.
    split; apply padded_lookup; lia.
Qed.


(** ** The tail computed by recalculateDownloadSteps *)

Section RecalcTail.

Variables (cfg : Config) (rw : nat -> Q) (name : string) (t : Z).
Variables (sz cp : Q).
Hypothesis Hsz : 0 < sz.
Hypothesis Hspeed : 0 < speed cfg.

Local Abbreviation downloaded := (sz * cp / 100).
Local Abbreviation remaining := (sz - sz * cp / 100).
Local Abbreviation T := (remainingTimeMs cfg (sz - sz * cp / 100)).

Lemma remainingTime_ge_100 : 100 <= T.
Proof. unfold remainingTimeMs. apply Q.le_max_l. Qed.

Lemma remainingTime_pos : 0 < T.
Proof. eapply Qlt_le_trans; [|apply remainingTime_ge_100]. reflexivity. Qed.

(** More than one interval of remaining time means something remains. *)
Lemma remaining_pos_of_long : 100 < T -> 0 < remaining.
Proof.
  unfold remainingTimeMs. intros H.
  destruct (Q.max_spec 100 (remaining * 8 * 1024 / (speed cfg * 1000000) * 1000))
    as [[_ E]|[_ E]]; rewrite E in H; [|exfalso; revert H; apply Qlt_irrefl].
  destruct (Qlt_le_dec 0 remaining) as [Hp|Hn]; [assumption|exfalso].
  assert (remaining * 8 * 1024 / (speed cfg * 1000000) <= 0) as Hx
    by (apply Qle_shift_div_r; lra).
  set (x := remaining * 8 * 1024 / (speed cfg * 1000000)) in *.
  clearbody x. lra.
Qed.

Section Steps.

Variable n : Z.

Local Abbreviation stepR := (newStep rw name t sz cp T n).

Lemma newStep_final i :
  Z.of_nat i = (n - 1)%Z ->
  progress (stepR i) == 100 /\ complete (stepR i) = true.
Proof.
  intros E. unfold newStep; simpl.
  rewrite (proj2 (Z.eqb_eq _ _) E). split; [|reflexivity].
  assert (Hz : ~ sz == 0) by (intros Ez; rewrite Ez in Hsz; revert Hsz; apply Qlt_irrefl).
  field. assumption.
Qed.

Lemma newStep_inner i :
  Z.of_nat i <> (n - 1)%Z ->
  progress (stepR i)
  == (downloaded + Qmin remaining (remaining / T * (num i * updateInterval)))
     / sz * 100.
Proof.
  intros E. unfold newStep; simpl.
  rewrite (proj2 (Z.eqb_neq _ _) E). reflexivity.
Qed.

Lemma newStep_inner_le_100 i :
  (downloaded + Qmin remaining (remaining / T * (num i * updateInterval)))
  / sz * 100 <= 100.
Proof.
  apply Qle_trans with (sz / sz * 100);
    [|rewrite (pct_full sz Hsz); apply Qle_refl].
  apply pct_mono; [assumption|].
  pose proof (Q.le_min_l remaining (remaining / T * (num i * updateInterval))) as Hm.
  set (m := Qmin _ _) in *. clearbody m. lra.
Qed.

Lemma recalc_loop_ends_complete :
  (1 <= n)%Z -> ends_complete (stepR <$> seq 0 (Z.to_nat n)).
Proof.
  intros Hn. replace (Z.to_nat n) with (S (Z.to_nat (n - 1)%Z)) by lia.
  exists (stepR (0 + Z.to_nat (n - 1)%Z)%nat). split; [apply last_loop|].
  apply newStep_final. rewrite Nat.add_0_l. lia.
Qed.

Lemma recalc_loop_nondecreasing :
  0 <= remaining ->
  nondecreasing (stepR <$> seq 0 (Z.to_nat n)).
Proof.
  intros Hrem i a b Ha Hb.
  apply lookup_loop in Ha as [Hi ->]. apply lookup_loop in Hb as [HSi ->].
  rewrite !Nat.add_0_l.
  destruct (Z.eq_dec (Z.of_nat (S i)) (n - 1)%Z) as [E|E].
  - rewrite (proj1 (newStep_final _ E)).
    rewrite newStep_inner by lia. apply newStep_inner_le_100.
  - rewrite !newStep_inner by lia.
    apply pct_mono; [assumption|].
    apply Qplus_le_r. apply Q.min_le_compat_l.
    rewrite !(Qmult_comm (remaining / T)).
    apply Qmult_le_compat_r.
    + apply Qmult_le_compat_r; [apply num_le; lia|discriminate].
    + apply Qdiv_pos; [assumption|apply remainingTime_pos].
Qed.

End Steps.

Local Abbreviation count := (Z.max 1 (Math_ceil (T / updateInterval))).

Lemma newSteps_unfold :
  newSteps cfg rw name t sz cp
  = newStep rw name t sz cp T count <$> seq 0 (Z.to_nat count).
Proof. reflexivity. Qed.

(** At most one interval of remaining time gives exactly one step. *)
Lemma newSteps_single :
  T <= updateInterval -> length (newSteps cfg rw name t sz cp) = 1%nat.
Proof.
  intros H. rewrite newSteps_unfold, length_loop.
  assert (Math_ceil (T / updateInterval) <= 1)%Z.
  { unfold Math_ceil. rewrite <- (Qceiling_Z 1). apply Qceiling_resp_le.
    unfold updateInterval in *. apply Qle_shift_div_r; [reflexivity|].
    change (inject_Z 1) with 1. set (x := T) in *. clearbody x. lra. }
  lia.
Qed.

Lemma newSteps_shape :
  let tail := newSteps cfg rw name t sz cp in
  tail <> [] /\ ends_complete tail /\ nondecreasing tail.
Proof.
  intros tail. subst tail. rewrite newSteps_unfold.
  split; [|split].
  - intros Hnil. apply (f_equal length) in Hnil.
    rewrite length_loop in Hnil. simpl in Hnil. lia.
  - apply recalc_loop_ends_complete. lia.
  - destruct (Qlt_le_dec 100 T) as [Hlong|Hshort].
    + apply recalc_loop_nondecreasing. apply Qlt_le_weak.
      now apply remaining_pos_of_long.
    + pose proof newSteps_single as Hone.
      rewrite newSteps_unfold, length_loop in Hone.
      rewrite Hone by (unfold updateInterval; lra).
      intros i a b _ Hb. destruct i; discriminate.
Qed.

End RecalcTail.

(** The size reported by [calculateDownloadTime] is positive in both
    modules, whatever the package. *)
Lemma reported_size_pos cfg rj name :
  0 < size (NetworkJs.calculateDownloadTime cfg rj name) /\
  0 < size (Part001.calculateDownloadTime cfg rj name None).
Proof.
  split.
  - unfold NetworkJs.calculateDownloadTime.
    destruct (negb (enabled cfg)); [apply net_size_pos|].
    match goal with |- context [Qltb ?a ?b] => destruct (Qltb a b) end;
      apply net_size_pos.
  - unfold Part001.calculateDownloadTime. simpl js_or.
    destruct (negb (enabled cfg)); apply net_size_pos.
Qed.


(** ** The registry of active downloads *)

Lemma get_after_clear w userId packageName :
  getDownloadStatus (setDownloadStatus userId packageName None w) userId packageName
  = None.
Proof.
  unfold getDownloadStatus, setDownloadStatus; simpl. apply lookup_delete_eq.
Qed.

Lemma get_after_set w userId packageName ds :
  getDownloadStatus (setDownloadStatus userId packageName (Some ds) w) userId packageName
  = Some ds.
Proof.
  unfold getDownloadStatus, setDownloadStatus; simpl. apply lookup_insert_eq.
Qed.

Lemma get_after_save w userId userFS uid name :
  getDownloadStatus (saveToDB userId userFS w) uid name = getDownloadStatus w uid name.
Proof. reflexivity. Qed.

Lemma saves_after_set w userId packageName o :
  saves (setDownloadStatus userId packageName o w) = saves w /\
  user_filesystems (setDownloadStatus userId packageName o w) = user_filesystems w.
Proof. destruct o; split; reflexivity. Qed.

(** ** Polling a transfer *)

Section Polling.

Variable PACKAGE_SIZES : gmap string Q.
Variable UPDATE_SIZES : gmap string Q.
Variable createDownloadSteps : string -> string -> option Q -> list Step.

Local Abbreviation poll :=
  (processDownload PACKAGE_SIZES UPDATE_SIZES createDownloadSteps).


(** Before the last index a poll only reports the current step, whatever
    the time of the call. *)
Lemma poll_before_last now w userId userFS packageName ds step :
  getDownloadStatus w userId packageName = Some ds ->
  steps ds !! currentStep ds = Some step ->
  currentStep ds <> (length (steps ds) - 1)%nat ->
  poll now w userId userFS packageName false
  = mkResult w userFS (Returned (Some (StepMessage (message step)))).
Proof.
  intros Hget Hstep Hne. unfold processDownload. rewrite Hget, Hstep. simpl.
  now rewrite (proj2 (Nat.eqb_neq _ _) Hne).
Qed.


(** At the last index a poll of an update writes the version, saves the
    filesystem once and clears the entry. *)
Lemma poll_last_update now w userId userFS packageName ds step :
  getDownloadStatus w userId packageName = Some ds ->
  steps ds !! currentStep ds = Some step ->
  currentStep ds = (length (steps ds) - 1)%nat ->
  String.prefix "update-" packageName = true ->
  os_version userFS <> None ->
  let updated := with_os_version (targetVersion ds) userFS in
  poll now w userId userFS packageName false
  = mkResult (setDownloadStatus userId packageName None (saveToDB userId updated w))
      updated
      (Returned (Some (SystemUpdatedOn (targetVersion ds)
                         (string_or (os_branch userFS) "stable")))).
Proof.
  intros Hget Hstep Hlast Hupd Hleaf. unfold processDownload.
  rewrite Hget, Hstep, Hupd. simpl.
  rewrite (proj2 (Nat.eqb_eq _ _) Hlast).
  destruct (os_version userFS); [reflexivity|contradiction].
Qed.

End Polling.

(** C5, on the side of the code: for an active transfer that is not at its
    last index, a non-initial poll reports the current step's message and
    changes nothing, at whatever time it is made.  In particular
    [currentStep] is the same after the poll even when the step's wait has
    long elapsed since [lastUpdate]: no poll advances a transfer. *)
Theorem processDownload_never_advances :
  forall (PACKAGE_SIZES UPDATE_SIZES : gmap string Q)
         (createDownloadSteps : string -> string -> option Q -> list Step)
         (now : Z) (w : World) (userId : string) (userFS : UserFS)
         (packageName : string) (ds : DownloadState) (step : Step),
    getDownloadStatus w userId packageName = Some ds ->
    steps ds !! currentStep ds = Some step ->
    currentStep ds <> (length (steps ds) - 1)%nat ->
    let r := processDownload PACKAGE_SIZES UPDATE_SIZES createDownloadSteps
               now w userId userFS packageName false in
    outcome r = Returned (Some (StepMessage (message step))) /\
    world r = w /\ userFS_after r = userFS /\
    getDownloadStatus (world r) userId packageName = Some ds.
Proof.
  intros PS US cds now w userId userFS packageName ds step Hget Hstep Hne r.
  subst r. rewrite (poll_before_last PS US cds now w userId userFS packageName ds step)
    by assumption.
  simpl. auto.
Qed.


(** C8: when the filesystem of the user already holds [<name>.pkg] under
    [/sys/pkgs], [pkg install <name>] answers that the package is already
    installed and leaves the whole state as it was: no entry of the
    registry is created or removed, and nothing is saved. *)
Theorem install_already_installed :
  forall (packageDefinitions : gmap string PackageDefinition)
         (PACKAGE_SIZES UPDATE_SIZES : gmap string Q)
         (osBranches : gmap string string)
         (createDownloadSteps : string -> string -> option Q -> list Step)
         (createFilesystem : UserFS)
         (now : Z) (w : World) (userId : string) (args : list string)
         (name : string) (record : Node),
    args !! 0%nat = Some "install" ->
    args !! 1%nat = Some name ->
    name <> "" ->
    pkgs (loadFromDB createFilesystem w userId) !! (name ++ ".pkg")%string = Some record ->
    pkgCommand packageDefinitions PACKAGE_SIZES UPDATE_SIZES osBranches
      createDownloadSteps createFilesystem now w userId args
    = (w, Returned (Some (AlreadyInstalled name))).
Proof.
  intros PD PS US OB cds cfs now w userId args name record H0 H1 Hname Hrec.
  unfold pkgCommand. rewrite H0, H1. simpl string_or at 1.
  cbv iota. simpl String.eqb at 1. cbv iota.
  assert (Hn : string_or (Some name) "" = name).
  { unfold string_or. destruct (String.eqb name "") eqn:E; [|reflexivity].
    apply String.eqb_eq in E. contradiction. }
  rewrite Hn.
  replace (String.eqb name "") with false
    by (symmetry; apply String.eqb_neq; assumption).
  assert (Hp : pkgs (match os_branch (loadFromDB cfs w userId) with
                     | Some _ => loadFromDB cfs w userId
                     | None => with_os_branch "stable" (loadFromDB cfs w userId)
                     end) = pkgs (loadFromDB cfs w userId))
    by (destruct (os_branch (loadFromDB cfs w userId)); reflexivity).
  simpl. rewrite Hp, Hrec. reflexivity.
Qed.

(** ** pkg upgrade *)

Lemma substring_whole s : String.substring 0 (String.length s) s = s.
Proof. induction s as [|a s IH]; simpl; [reflexivity|now rewrite IH]. Qed.

Lemma branch_argument b :
  String.prefix "--" ("--" ++ b) = true /\
  String.substring 2 (String.length ("--" ++ b) - 2) ("--" ++ b) = b.
Proof.
  split.
  - simpl. destruct b; reflexivity.
  - simpl. rewrite Nat.sub_0_r. apply substring_whole.
Qed.

Lemma find_branch_argument b :
  List.find (String.prefix "--") ["upgrade"; ("--" ++ b)%string]
  = Some ("--" ++ b)%string.
Proof.
  change (List.find (String.prefix "--") ["upgrade"; ("--" ++ b)%string])
    with (if String.prefix "--" ("--" ++ b) then Some ("--" ++ b)%string else None).
  now rewrite (proj1 (branch_argument b)).
Qed.

Lemma update_name_is_update v : String.prefix "update-" ("update-" ++ v) = true.
Proof. simpl. destruct v; reflexivity. Qed.

Lemma string_or_nonempty s d : s <> "" -> string_or (Some s) d = s.
Proof.
  intros H. unfold string_or. destruct (String.eqb s "") eqn:E; [|reflexivity].
  apply String.eqb_eq in E. contradiction.
Qed.

(** C9: [pkg upgrade --<branch>] writes the target branch to
    [/sys/os_branch] and saves the filesystem at once, when the transfer
    starts, whereas [/sys/os_version] is written by the poll that completes
    the update; the filesystem saved in between holds the new branch with
    the old version, and a poll before the last index leaves it so. *)
Theorem upgrade_writes_branch_before_version :
  forall (packageDefinitions : gmap string PackageDefinition)
         (PACKAGE_SIZES UPDATE_SIZES : gmap string Q)
         (osBranches : gmap string string)
         (createDownloadSteps : string -> string -> option Q -> list Step)
         (createFilesystem : UserFS)
         (now : Z) (w : World) (userId branch target old : string),
    let fs0 := loadFromDB createFilesystem w userId in
    let oldBranch := default "stable" (os_branch fs0) in
    let key := ("update-" ++ target)%string in
    let plan :=
      createDownloadSteps userId key (Some (getUpdateSize UPDATE_SIZES target)) in
    let poll := processDownload PACKAGE_SIZES UPDATE_SIZES createDownloadSteps in
    osBranches !! branch = Some target ->
    target <> "" ->
    match os_version fs0 with None => Some "1.0.0" | Some c => c end = Some old ->
    ~ (old = target /\ oldBranch = branch) ->
    exists (w' : World) (out : Outcome) (fs' : UserFS),
      pkgCommand packageDefinitions PACKAGE_SIZES UPDATE_SIZES osBranches
        createDownloadSteps createFilesystem now w userId ["upgrade"; ("--" ++ branch)%string]
      = (w', out) /\
      (* what is saved when the transfer starts *)
      user_filesystems w' !! userId = Some fs' /\
      saves w' = (userId, fs') :: saves w /\
      os_branch fs' = Some branch /\
      os_version fs' = Some (Some old) /\
      pkgs fs' = pkgs fs0 /\
      getDownloadStatus w' userId key
      = Some (mkDownloadState plan 0 now true (Some target)) /\
      (* a poll before the last index leaves it so *)
      (forall (now2 : Z) (step : Step),
          plan !! 0%nat = Some step -> 0%nat <> (length plan - 1)%nat ->
          world (poll now2 w' userId fs' key false) = w') /\
      (* the poll at the last index writes the version *)
      (forall (now2 : Z) (w2 : World) (ds2 : DownloadState) (step : Step),
          getDownloadStatus w2 userId key = Some ds2 ->
          targetVersion ds2 = Some target ->
          steps ds2 !! currentStep ds2 = Some step ->
          currentStep ds2 = (length (steps ds2) - 1)%nat ->
          let r := poll now2 w2 userId fs' key false in
          os_version (userFS_after r) = Some (Some target) /\
          os_branch (userFS_after r) = Some branch /\
          user_filesystems (world r) !! userId = Some (userFS_after r)).
Proof.
  intros PD PS US OB cds cfs now w userId branch target old
         fs0 oldBranch key plan poll Hbr Htarget Hold Hnew.
  (* the filesystem after the two "make sure" steps *)
  set (fsB := match os_branch fs0 with
              | Some _ => fs0 | None => with_os_branch "stable" fs0 end).
  set (fsV := match os_version fsB with
              | Some _ => fsB | None => with_os_version (Some "1.0.0") fsB end).
  assert (HB : os_branch fsV = Some oldBranch).
  { subst fsV fsB oldBranch. destruct (os_branch fs0) eqn:Eb;
      destruct (os_version fs0) eqn:Ev; simpl; rewrite ?Ev, ?Eb; simpl;
      rewrite ?Eb; reflexivity. }
  assert (HV : os_version fsV = Some (Some old)).
  { subst fsV fsB. destruct (os_branch fs0) eqn:Eb;
      destruct (os_version fs0) eqn:Ev; simpl; rewrite ?Ev; simpl;
      rewrite ?Ev; congruence. }
  assert (HP : pkgs fsV = pkgs fs0).
  { subst fsV fsB. destruct (os_branch fs0); destruct (os_version fs0);
      simpl; try reflexivity;
      match goal with |- context [match ?x with _ => _ end] => destruct x end;
      reflexivity. }
  set (fs' := with_os_branch branch fsV).
  set (ds := mkDownloadState plan 0 now true (Some target)).
  set (w' := setDownloadStatus userId key (Some ds) (saveToDB userId fs' w)).
  assert (Hrun : exists out,
    pkgCommand PD PS US OB cds cfs now w userId ["upgrade"; ("--" ++ branch)%string]
    = (w', out)).
  { unfold pkgCommand. simpl string_or. simpl String.eqb. cbv iota.
    unfold pkgUpgrade. rewrite find_branch_argument.
    rewrite (proj2 (branch_argument branch)), Hbr.
    rewrite (string_or_nonempty target "" Htarget).
    replace (String.eqb target "") with false
      by (symmetry; apply String.eqb_neq; assumption).
    unfold pkgUpgradeTo. fold fs0. fold fsB. fold fsV.
    rewrite Hbr, HB, HV. simpl content_of. simpl default.
    assert (Hup : bool_decide (Some old = Some target) && String.eqb oldBranch branch
                  = false).
    { destruct (bool_decide (Some old = Some target)) eqn:E1; [|reflexivity].
      destruct (String.eqb oldBranch branch) eqn:E2; [|reflexivity].
      apply bool_decide_eq_true in E1. apply String.eqb_eq in E2.
      exfalso. apply Hnew. split; congruence. }
    rewrite Hup.
    unfold startUpdateDownload. simpl str. fold key. fold plan. fold fs'. fold ds.
    fold w'.
    destruct (String.eqb oldBranch "unstable" && String.eqb branch "stable");
      simpl; destruct plan as [|first rest]; simpl;
      repeat match goal with
             | |- context [if ?b then _ else _] => destruct b
             end; eexists; reflexivity. }
  destruct Hrun as [out Hrun].
  exists w', out, fs'. split; [exact Hrun|].
  split; [subst w'; simpl; apply lookup_insert_eq|].
  split; [reflexivity|]. split; [reflexivity|].
  split; [exact HV|]. split; [exact HP|].
  split; [subst w'; apply get_after_set|].
  split.
  - intros now2 step Hstep Hne. subst poll.
    rewrite (poll_before_last PS US cds now2 w' userId fs' key ds step).
    + reflexivity.
    + subst w'. apply get_after_set.
    + exact Hstep.
    + exact Hne.
  - intros now2 w2 ds2 step Hget Htv Hstep Hlast r. subst r poll.
    rewrite (poll_last_update PS US cds now2 w2 userId fs' key ds2 step
               Hget Hstep Hlast (update_name_is_update target)).
    + simpl. rewrite Htv. split; [reflexivity|]. split; [reflexivity|].
      apply lookup_insert_eq.
    + simpl. rewrite HV. discriminate.
Qed.

(** ** A change of profile that makes the transfer instant *)



(** ** The theorems at work on the sample data *)


Lemma processDownload_never_advances_witness :
  let r := processDownload sample_sizes ∅ sample_createDownloadSteps
             61000 sample_started "42" sample_filesystem "echo" false in
  outcome r
  = Returned (Some (StepMessage
      (message (Part001.createStep "echo" 3887 472 3 1)))) /\
  world r = sample_started /\ userFS_after r = sample_filesystem /\
  getDownloadStatus (world r) "42" "echo"
  = Some (mkDownloadState sample_plan 0 1000 false None).
Proof.
  apply (processDownload_never_advances sample_sizes ∅ sample_createDownloadSteps
           61000 sample_started "42" sample_filesystem "echo"
           (mkDownloadState sample_plan 0 1000 false None)).
  - reflexivity.
  - reflexivity.
  - vm_compute. discriminate.
Defined.


Lemma install_already_installed_witness :
  pkgCommand sample_definitions sample_sizes ∅ sample_branches
    sample_createDownloadSteps sample_filesystem 5000 sample_installed "7"
    ["install"; "echo"]
  = (sample_installed, Returned (Some (AlreadyInstalled "echo"))).
Proof.
  apply (install_already_installed sample_definitions sample_sizes ∅ sample_branches
           sample_createDownloadSteps sample_filesystem 5000 sample_installed "7"
           ["install"; "echo"] "echo" (package_record "echo" "1.0.0" "stable")).
  - reflexivity.
  - reflexivity.
  - discriminate.
  - reflexivity.
Defined.

Lemma upgrade_writes_branch_before_version_witness :
  exists (w' : World) (out : Outcome) (fs' : UserFS),
    pkgCommand sample_definitions sample_sizes ∅ sample_branches
      sample_createDownloadSteps sample_filesystem 5000 sample_installed "7"
      ["upgrade"; "--unstable"] = (w', out) /\
    user_filesystems w' !! "7" = Some fs' /\
    saves w' = [("7", fs')] /\
    os_branch fs' = Some "unstable" /\
    os_version fs' = Some (Some "1.0.0") /\
    is_Some (getDownloadStatus w' "7" "update-1.0.0.2").
Proof.
  destruct (upgrade_writes_branch_before_version sample_definitions sample_sizes ∅
              sample_branches sample_createDownloadSteps sample_filesystem 5000
              sample_installed "7" "unstable" "1.0.0.2" "1.0.0")
    as (w' & out & fs' & H1 & H2 & H3 & H4 & H5 & _ & H7 & _).
  - reflexivity.
  - discriminate.
  - reflexivity.
  - intros [H _]. discriminate H.
  - exists w', out, fs'. split; [exact H1|]. split; [exact H2|].
    split; [exact H3|]. split; [exact H4|]. split; [exact H5|].
    eexists. exact H7.
Defined.


(** * Further properties of the code *)

(** ** compareVersions as an order on versions *)

Lemma lex_compare_refl l : lex_compare l l = 0%Z.
Proof.
  induction l as [|a l IH]; simpl; [reflexivity|]. now rewrite Z.compare_refl.
Qed.

Lemma lex_compare_snoc_zero l1 l2 :
  length l1 = length l2 ->
  lex_compare (l1 ++ [0%Z]) (l2 ++ [0%Z]) = lex_compare l1 l2.
Proof.
  revert l2. induction l1 as [|a l1 IH]; intros [|b l2] Hlen; simpl in *;
    try discriminate; [reflexivity|].
  destruct (a ?= b)%Z; try reflexivity. apply IH. lia.
Qed.

Lemma padded_S n l : (length l <= n)%nat -> padded (S n) l = padded n l ++ [0%Z].
Proof.
  intros H. unfold padded. rewrite <- app_assoc. f_equal.
  replace (S n - length l)%nat with (S (n - length l)) by lia.
  apply replicate_S_end.
Qed.

(** Padding further than needed does not change the comparison. *)
Lemma lex_compare_padded_more l1 l2 n m :
  (length l1 <= n)%nat -> (length l2 <= n)%nat -> (n <= m)%nat ->
  lex_compare (padded m l1) (padded m l2) = lex_compare (padded n l1) (padded n l2).
Proof.
  intros H1 H2 Hnm. induction Hnm as [|m Hnm IH]; [reflexivity|].
  rewrite !padded_S by lia. rewrite lex_compare_snoc_zero; [exact IH|].
  rewrite !padded_length by lia. reflexivity.
Qed.

Lemma compareVersions_padded a b n :
  (length (components a) <= n)%nat -> (length (components b) <= n)%nat ->
  compareVersions a b = lex_compare (padded n (components a)) (padded n (components b)).
Proof.
  intros Ha Hb. rewrite compareVersions_refines. unfold compareVersions_spec.
  symmetry. apply lex_compare_padded_more; lia.
Qed.

Lemma lex_compare_trans l1 l2 l3 :
  length l1 = length l2 -> length l2 = length l3 ->
  (lex_compare l1 l2 <= 0)%Z -> (lex_compare l2 l3 <= 0)%Z ->
  (lex_compare l1 l3 <= 0)%Z /\
  (lex_compare l1 l3 = 0%Z -> lex_compare l1 l2 = 0%Z /\ lex_compare l2 l3 = 0%Z).
Proof.
  revert l2 l3. induction l1 as [|a l1 IH]; intros [|b l2] [|c l3] H12 H23;
    simpl in *; try discriminate; [intros; split; [lia|auto]|].
  destruct (Z.compare_spec a b) as [Eab|Eab|Eab];
    destruct (Z.compare_spec b c) as [Ebc|Ebc|Ebc];
    destruct (Z.compare_spec a c) as [Eac|Eac|Eac];
    try lia; intros Hx Hy; try (split; [lia|intros; lia]).
  apply IH; lia.
Qed.

Lemma cv_refl a : compareVersions a a = 0%Z.
Proof. rewrite compareVersions_refines. apply lex_compare_refl. Qed.

Lemma cv_swap a b : compareVersions b a = (- compareVersions a b)%Z.
Proof.
  rewrite !compareVersions_refines. unfold compareVersions_spec.
  rewrite (Nat.max_comm (length (components b))). apply lex_compare_antisym.
Qed.

Lemma cv_trans a b c :
  (compareVersions a b <= 0)%Z -> (compareVersions b c <= 0)%Z ->
  (compareVersions a c <= 0)%Z /\
  (compareVersions a c = 0%Z ->
   compareVersions a b = 0%Z /\ compareVersions b c = 0%Z).
Proof.
  set (n := Nat.max (length (components a))
              (Nat.max (length (components b)) (length (components c)))).
  rewrite (compareVersions_padded a b n), (compareVersions_padded b c n),
          (compareVersions_padded a c n) by lia.
  apply lex_compare_trans; rewrite !padded_length; lia.
Qed.

(** X1: [compareVersions] is reflexive and swapping its arguments negates
    its result, for all strings. *)
Theorem compareVersions_refl_antisym :
  forall a b : string,
    compareVersions a a = 0%Z /\
    compareVersions b a = (- compareVersions a b)%Z.
Proof. intros a b. split; [apply cv_refl|apply cv_swap]. Qed.

(** X2: [compareVersions] is transitive, also between versions with
    different numbers of components: if [a] is not above [b] and [b] is not
    above [c], then [a] is not above [c], and [a] compares equal to [c]
    only if it compares equal to [b] and [b] to [c]. *)
Theorem compareVersions_trans :
  forall a b c : string,
    (compareVersions a b <= 0)%Z -> (compareVersions b c <= 0)%Z ->
    (compareVersions a c <= 0)%Z /\
    (compareVersions a c = 0%Z ->
     compareVersions a b = 0%Z /\ compareVersions b c = 0%Z).
Proof. intros a b c. apply cv_trans. Qed.

Lemma compareVersions_trans_witness :
  (compareVersions "1.0" "1.0.0.1" <= 0)%Z /\
  (compareVersions "1.0.0.1" "1.2" <= 0)%Z /\
  (compareVersions "1.0" "1.2" <= 0)%Z.
Proof.
  assert (H1 : (compareVersions "1.0" "1.0.0.1" <= 0)%Z) by (vm_compute; discriminate).
  assert (H2 : (compareVersions "1.0.0.1" "1.2" <= 0)%Z) by (vm_compute; discriminate).
  split; [exact H1|]. split; [exact H2|].
  exact (proj1 (compareVersions_trans "1.0" "1.0.0.1" "1.2" H1 H2)).
Defined.

Lemma split_on_nonempty c s : split_on c s <> [].
Proof.
  destruct s as [|a s]; simpl; [discriminate|].
  destruct (Ascii.eqb a c); [discriminate|].
  destruct (split_on c s); discriminate.
Qed.

Lemma split_on_append_component s :
  split_on "." (s ++ ".0") = split_on "." s ++ ["0"%string].
Proof.
  induction s as [|a s IH]; [reflexivity|].
  change (String a s ++ ".0")%string with (String a (s ++ ".0")).
  cbn [split_on]. destruct (Ascii.eqb a "."); rewrite IH; [reflexivity|].
  pose proof (split_on_nonempty "." s) as Hne.
  destruct (split_on "." s); [contradiction|reflexivity].
Qed.

(** X3: a trailing component [.0] does not count: [compareVersions] gives
    the same result for [a ++ ".0"] as for [a], on either side. *)
Theorem compareVersions_trailing_zero :
  forall a b : string,
    compareVersions (a ++ ".0") b = compareVersions a b /\
    compareVersions b (a ++ ".0") = compareVersions b a.
Proof.
  assert (Hc : forall a, components (a ++ ".0") = components a ++ [0%Z]).
  { intros a. unfold components. rewrite split_on_append_component.
    rewrite !fmap_app. reflexivity. }
  assert (Hp : forall a n, (S (length (components a)) <= n)%nat ->
                 padded n (components (a ++ ".0")) = padded n (components a)).
  { intros a n Hn. rewrite Hc. unfold padded. rewrite <- app_assoc. f_equal.
    rewrite length_app. simpl length.
    replace (n - length (components a))%nat
      with (S (n - (length (components a) + 1))) by lia.
    reflexivity. }
  assert (Hl : forall a, length (components (a ++ ".0")) = S (length (components a))).
  { intros a. rewrite Hc, length_app. simpl. lia. }
  intros a b.
  set (n := Nat.max (S (length (components a))) (length (components b))).
  split.
  - rewrite (compareVersions_padded (a ++ ".0") b n), (compareVersions_padded a b n)
      by (rewrite ?Hl; lia).
    rewrite Hp by lia. reflexivity.
  - rewrite (compareVersions_padded b (a ++ ".0") n), (compareVersions_padded b a n)
      by (rewrite ?Hl; lia).
    rewrite Hp by lia. reflexivity.
Qed.



(** ** What every step of a plan looks like *)

Lemma total_wait_app l1 l2 : total_wait (l1 ++ l2) == total_wait l1 + total_wait l2.
Proof.
  induction l1 as [|s l1 IH]; simpl.
  - ring.
  - rewrite IH. ring.
Qed.

Lemma total_wait_single s : total_wait [s] == wait s.
Proof. simpl. ring. Qed.

Lemma total_wait_snoc (f : nat -> Step) (s m : nat) :
  total_wait (f <$> seq s (S m))
  == total_wait (f <$> seq s m) + wait (f (s + m)%nat).
Proof.
  rewrite seq_S, fmap_app, total_wait_app.
  change (f <$> [(s + m)%nat]) with [f (s + m)%nat].
  now rewrite total_wait_single.
Qed.


Lemma total_wait_loop_const (f : nat -> Step) (c : Q) (s m : nat) :
  (forall i, (s <= i < s + m)%nat -> wait (f i) == c) ->
  total_wait (f <$> seq s m) == c * num m.
Proof.
  revert s. induction m as [|m IH]; intros s H.
  - simpl. unfold num. simpl. ring.
  - simpl. rewrite num_S, (H s ltac:(lia)).
    rewrite (IH (S s) ltac:(intros i Hi; apply H; lia)). ring.
Qed.

Section NetworkJsSteps.

Variables (rw : nat -> Q) (name : string) (t : Z) (sz : Q) (n : Z).
Hypothesis Hsz : 0 < sz.
Hypothesis Ht : (0 < t)%Z.
Hypothesis Hrw : forall i, 0 <= rw i /\ rw i < 1.

Local Abbreviation stepN := (NetworkJs.createStep rw name t sz n).






End NetworkJsSteps.



Section Part001Steps.

Variables (name : string) (t : Z) (sz : Q).
Hypothesis Ht : (0 < t)%Z.

Local Abbreviation count1 := (Math_ceil (inject_Z t / updateInterval)).
Local Abbreviation stepP := (Part001.createStep name t sz count1).

Lemma part001_step_complete i : complete (stepP i) = true <-> Z.of_nat i = count1.
Proof. unfold Part001.createStep; simpl. apply Z.eqb_eq. Qed.

Lemma part001_step_progress_range i :
  0 <= progress (stepP i) /\ progress (stepP i) <= 100.
Proof.
  pose proof (tQ_pos t Ht) as Htq.
  destruct (Z.eq_dec (Z.of_nat i) count1) as [E|E].
  - rewrite (proj1 (part001_progress_last name t sz count1 i E)). split; discriminate.
  - rewrite (part001_progress_inner name t sz count1 i E).
    split; [|now apply part001_inner_le_100].
    apply Qle_shift_div_l; [reflexivity|]. rewrite Qmult_0_l.
    change 0 with (inject_Z 0). rewrite <- Zle_Qle.
    change 0%Z with (Math_round 0). apply Math_round_mono.
    apply Qmult_le_0_compat; [|discriminate].
    apply Qmult_le_0_compat; [|discriminate].
    apply Qdiv_pos; [|assumption].
    apply Q.min_glb; [now apply Qlt_le_weak|].
    apply Qmult_le_0_compat; [apply num_nonneg|discriminate].
Qed.

Lemma part001_step_wait_inner i : Z.of_nat i <> count1 -> wait (stepP i) == 1500.
Proof.
  intros E. unfold Part001.createStep; simpl.
  rewrite (proj2 (Z.eqb_neq _ _) E). reflexivity.
Qed.

Lemma part001_step_wait_last i :
  Z.of_nat i = count1 ->
  wait (stepP i) == Qmax 50 (inject_Z t - 1500 * inject_Z (count1 - 1)).
Proof.
  intros E. unfold Part001.createStep; simpl.
  rewrite (proj2 (Z.eqb_eq _ _) E). reflexivity.
Qed.

(** The last interval is begun and not exceeded. *)
Lemma part001_last_interval :
  1500 * inject_Z (count1 - 1) < inject_Z t /\ inject_Z t <= 1500 * inject_Z count1.
Proof.
  pose proof (Qceiling_lt (inject_Z t / updateInterval)) as H1.
  pose proof (Qle_ceiling (inject_Z t / updateInterval)) as H2.
  unfold Math_ceil, updateInterval in *.
  assert (E : inject_Z t / 1500 * 1500 == inject_Z t) by field.
  set (a := inject_Z (Qceiling (inject_Z t / 1500) - 1)) in *.
  set (b := inject_Z (Qceiling (inject_Z t / 1500))) in *.
  set (q := inject_Z t / 1500) in *. set (u := inject_Z t) in *.
  clearbody a b q u. split; lra.
Qed.

Lemma part001_loop_total_wait :
  let plan := stepP <$> seq 1 (Z.to_nat count1) in
  inject_Z t <= total_wait plan /\ total_wait plan < inject_Z t + 50.
Proof.
  intros plan. subst plan.
  pose proof (ceil_pos_ge_1 t Ht) as Hn.
  replace (Z.to_nat count1) with (S (Z.to_nat (count1 - 1)%Z)) by lia.
  rewrite total_wait_snoc.
  rewrite (total_wait_loop_const stepP 1500 1 (Z.to_nat (count1 - 1)%Z))
    by (intros i Hi; apply part001_step_wait_inner; lia).
  rewrite (part001_step_wait_last (1 + Z.to_nat (count1 - 1)%Z)%nat) by lia.
  assert (Hn1 : num (Z.to_nat (count1 - 1)) == inject_Z (count1 - 1)).
  { unfold num. rewrite Z2Nat.id by lia. reflexivity. }
  rewrite Hn1. destruct part001_last_interval as [H1 _].
  pose proof (Q.le_max_l 50 (inject_Z t - 1500 * inject_Z (count1 - 1))) as M1.
  pose proof (Q.le_max_r 50 (inject_Z t - 1500 * inject_Z (count1 - 1))) as M2.
  destruct (Q.max_spec 50 (inject_Z t - 1500 * inject_Z (count1 - 1)))
    as [[_ M]|[_ M]];
    set (m := Qmax _ _) in *; set (a := inject_Z (count1 - 1)) in *;
    set (u := inject_Z t) in *; clearbody m a u; split; lra.
Qed.

End Part001Steps.

(** X6: in part_001, for a size of at least 1 KB under an enabled profile,
    every step of the plan has its progress between 0 and 100 and is
    marked complete exactly when it is the last one; a step that is not the
    last waits 1500 ms and the last one at least 50 ms; and the waits of
    the plan add up to the computed duration, or to less than 50 ms more. *)
Theorem part001_steps_wellformed :
  forall (cfg : Config) (rj : Q) (name : string) (sizeKB : Q),
    valid_config cfg -> enabled cfg = true -> 0 <= rj -> 1 <= sizeKB ->
    let plan := Part001.createDownloadSteps cfg rj name (Some sizeKB) in
    let t := time (Part001.calculateDownloadTime cfg rj name (Some sizeKB)) in
    (forall (i : nat) (s : Step),
        plan !! i = Some s ->
        0 <= progress s /\ progress s <= 100 /\
        (complete s = true <-> S i = length plan) /\
        (complete s = false -> wait s == 1500) /\
        50 <= wait s) /\
    inject_Z t <= total_wait plan /\ total_wait plan < inject_Z t + 50.
Proof.
  intros cfg rj name sizeKB Hv En Hr Hsz plan t.
  assert (Hpos : 0 < sizeKB) by lra.
  pose proof (part001_time_pos cfg rj name sizeKB Hv En Hr Hsz) as Ht.
  fold t in Ht. assert (Ht0 : (0 < t)%Z) by lia.
  assert (Hplan : plan = Part001.createStep name t sizeKB
                           (Math_ceil (inject_Z t / updateInterval))
                         <$> seq 1 (Z.to_nat (Math_ceil (inject_Z t / updateInterval)))).
  { subst plan t. unfold Part001.createDownloadSteps.
    rewrite (js_or_pos _ _ Hpos), En. reflexivity. }
  rewrite Hplan. clear Hplan. clearbody t.
  pose proof (ceil_pos_ge_1 t Ht0) as Hn.
  split; [|now apply part001_loop_total_wait].
  intros i s Hs. rewrite length_loop.
  apply lookup_loop in Hs as [Hi ->].
  destruct (part001_step_progress_range name t sizeKB Ht0 (1 + i)) as [P0 P1].
  split; [exact P0|]. split; [exact P1|].
  pose proof (part001_step_complete name t sizeKB (1 + i)) as Hc.
  split; [rewrite Hc; lia|].
  destruct (Z.eq_dec (Z.of_nat (1 + i)) (Math_ceil (inject_Z t / updateInterval)))
    as [E|E].
  - split.
    + intros Hf. apply Hc in E. congruence.
    + rewrite (part001_step_wait_last name t sizeKB (1 + i)%nat E). apply Q.le_max_l.
  - rewrite (part001_step_wait_inner name t sizeKB (1 + i)%nat E).
    split; [reflexivity|discriminate].
Qed.

Lemma part001_steps_wellformed_witness :
  let plan := Part001.createDownloadSteps one_mbps 0 "echo" (Some 472) in
  3887 <= total_wait plan /\ total_wait plan < 3887 + 50.
Proof.
  apply (proj2 (part001_steps_wellformed one_mbps 0 "echo" 472
                  one_mbps_valid eq_refl ltac:(discriminate) ltac:(discriminate))).
Defined.

(** ** Recalculation and the shape of the whole plan *)

Lemma recalculate_noninstant calc cfg rj rw name ds cur :
  enabled cfg = true -> (100 <= time (calc cfg rj name))%Z ->
  steps ds !! currentStep ds = Some cur ->
  recalculateDownloadSteps calc cfg rj rw name (Some ds)
  = Some (set_steps
            (take (S (currentStep ds)) (steps ds)
             ++ newSteps cfg rw name (time (calc cfg rj name))
                  (size (calc cfg rj name)) (progress cur)) ds).
Proof.
  intros En Ht Hcur. pose proof (lookup_lt_Some _ _ _ Hcur) as Hlt.
  unfold recalculateDownloadSteps.
  replace (length (steps ds) <=? currentStep ds)%nat with false
    by (symmetry; apply Nat.leb_gt; lia).
  rewrite En. simpl negb. rewrite orb_false_r.
  replace (Z.eqb (time (calc cfg rj name)) 0) with false
    by (symmetry; apply Z.eqb_neq; lia).
  replace (Z.ltb (time (calc cfg rj name)) 100) with false
    by (symmetry; apply Z.ltb_ge; lia).
  simpl orb. cbv iota. rewrite Hcur.
  now replace (currentStep ds + 1)%nat with (S (currentStep ds)) by lia.
Qed.








(** X8: after a change of profile that leaves the transfer not instant,
    the transfer is never at its last index, even if it was before: the
    recalculation adds at least one step behind [currentStep], so the next
    poll only reports the message of the current step and installs
    nothing. *)
Theorem recalculate_postpones_completion :
  forall (calc : Config -> Q -> string -> DownloadTime)
         (cfg : Config) (rj : Q) (rw : nat -> Q)
         (PACKAGE_SIZES UPDATE_SIZES : gmap string Q)
         (createDownloadSteps : string -> string -> option Q -> list Step)
         (now : Z) (w : World) (userId : string) (userFS : UserFS)
         (name : string) (ds : DownloadState) (cur : Step),
    valid_config cfg -> 0 < size (calc cfg rj name) ->
    enabled cfg = true -> (100 <= time (calc cfg rj name))%Z ->
    getDownloadStatus w userId name = Some ds ->
    steps ds !! currentStep ds = Some cur ->
    let w' := recalculateActive (recalculateDownloadSteps calc cfg rj rw) w userId name in
    let r := processDownload PACKAGE_SIZES UPDATE_SIZES createDownloadSteps
               now w' userId userFS name false in
    (exists ds' : DownloadState,
        getDownloadStatus w' userId name = Some ds' /\
        currentStep ds' = currentStep ds /\
        (currentStep ds' < length (steps ds') - 1)%nat) /\
    outcome r = Returned (Some (StepMessage (message cur))) /\
    world r = w' /\ userFS_after r = userFS /\
    saves (world r) = saves w /\ user_filesystems (world r) = user_filesystems w.
Proof.
  intros calc cfg rj rw PS US cds now w userId userFS name ds cur
         (Hspeed & _) Hsz En Ht Hget Hcur w' r.
  pose proof (lookup_lt_Some _ _ _ Hcur) as Hlt.
  pose proof (recalculate_noninstant calc cfg rj rw name ds cur En Ht Hcur) as Hre.
  set (tail := newSteps cfg rw name (time (calc cfg rj name))
                 (size (calc cfg rj name)) (progress cur)) in *.
  set (ds' := set_steps (take (S (currentStep ds)) (steps ds) ++ tail) ds) in *.
  pose proof (newSteps_shape cfg rw name (time (calc cfg rj name))
                (size (calc cfg rj name)) (progress cur) Hsz Hspeed) as (Hne & _).
  fold tail in Hne.
  assert (Htl : (1 <= length tail)%nat)
    by (destruct tail; [contradiction|simpl; lia]).
  assert (Hw' : w' = setDownloadStatus userId name (Some ds') w).
  { subst w'. unfold recalculateActive. rewrite Hget.
    rewrite (proj2 (Nat.ltb_lt _ _) Hlt). now rewrite Hre. }
  assert (Hget' : getDownloadStatus w' userId name = Some ds')
    by (rewrite Hw'; apply get_after_set).
  assert (Hlen : (currentStep ds' < length (steps ds') - 1)%nat).
  { subst ds'. simpl. rewrite length_app, length_take. lia. }
  assert (Hcur' : steps ds' !! currentStep ds' = Some cur).
  { subst ds'. simpl. rewrite lookup_app_l by (rewrite length_take; lia).
    rewrite lookup_take_lt by lia. exact Hcur. }
  split; [exists ds'; auto|].
  subst r.
  rewrite (poll_before_last PS US cds now w' userId userFS name ds' cur Hget' Hcur')
    by lia.
  simpl. rewrite Hw'. auto.
Qed.

Lemma recalculate_postpones_completion_witness :
  let w' := recalculateActive (Part001.recalculateDownloadSteps one_mbps 0 half)
              sample_finishing "42" "echo" in
  let r := processDownload sample_sizes ∅ sample_createDownloadSteps
             61000 w' "42" sample_filesystem "echo" false in
  world r = w' /\ userFS_after r = sample_filesystem /\ saves (world r) = [].
Proof.
  intros w' r.
  destruct (recalculate_postpones_completion
              (fun cfg rj name => Part001.calculateDownloadTime cfg rj name None)
              one_mbps 0 half sample_sizes ∅ sample_createDownloadSteps 61000
              sample_finishing "42" sample_filesystem "echo"
              (mkDownloadState sample_plan 2 1000 false None)
              (Part001.createStep "echo" 3887 472 3 3))
    as (_ & _ & H2 & H3 & H4 & _).
  - exact one_mbps_valid.
  - reflexivity.
  - reflexivity.
  - discriminate.
  - reflexivity.
  - reflexivity.
  - split; [exact H2|]. split; [exact H3|exact H4].
Defined.

(** ** How the duration depends on size and speed *)

Lemma with_speed_valid cfg v : valid_config cfg -> 0 < v -> valid_config (with_speed v cfg).
Proof. intros (_ & H) Hv. split; assumption. Qed.

Lemma base_ms_mono_size cfg s1 s2 :
  0 < speed cfg -> s1 <= s2 -> base_ms cfg s1 <= base_ms cfg s2.
Proof.
  intros Hs H. unfold base_ms.
  apply Qmult_le_compat_r; [|discriminate].
  unfold Qdiv. apply Qmult_le_compat_r.
  - lra.
  - apply Qinv_le_0_compat. lra.
Qed.

Lemma base_ms_anti_speed cfg v1 v2 sz :
  0 <= sz -> 0 < v1 -> v1 <= v2 ->
  base_ms (with_speed v2 cfg) sz <= base_ms (with_speed v1 cfg) sz.
Proof.
  intros Hsz H1 H12. unfold base_ms; simpl.
  apply Qmult_le_compat_r; [|discriminate].
  set (c := sz * 8 * 1024).
  assert (Hc : 0 <= c) by (subst c; lra).
  set (q := c / (v1 * 1000000)).
  assert (Hq : 0 <= q) by (subst q; apply Qdiv_pos; lra).
  assert (E : c == q * (v1 * 1000000)) by (subst q; field; lra).
  apply Qle_shift_div_r; [lra|].
  rewrite E at 1. rewrite !(Qmult_comm q).
  apply Qmult_le_compat_r; [lra|assumption].
Qed.

Lemma duration_formula_mono a1 a2 l j f :
  a1 <= a2 -> 0 <= f ->
  (Math_round ((a1 + l + j) * (1 + f)) <= Math_round ((a2 + l + j) * (1 + f)))%Z.
Proof.
  intros Ha Hf. apply Math_round_mono.
  apply Qmult_le_compat_r; lra.
Qed.

Lemma loss_factor_nonneg cfg : 0 <= packetLoss cfg -> 0 <= packetLoss cfg / 100.
Proof. intros H. apply Qle_shift_div_l; [reflexivity|lra]. Qed.

(** X9: in part_001, with the jitter draw fixed, the duration never
    decreases when the size grows and never increases when the speed
    grows. *)
Theorem part001_duration_monotone :
  forall (cfg : Config) (rj : Q) (name : string),
    valid_config cfg ->
    (forall s1 s2 : Q,
        0 < s1 -> s1 <= s2 ->
        (time (Part001.calculateDownloadTime cfg rj name (Some s1))
         <= time (Part001.calculateDownloadTime cfg rj name (Some s2)))%Z) /\
    (forall (sz v1 v2 : Q),
        0 < sz -> 0 < v1 -> v1 <= v2 ->
        (time (Part001.calculateDownloadTime (with_speed v2 cfg) rj name (Some sz))
         <= time (Part001.calculateDownloadTime (with_speed v1 cfg) rj name (Some sz)))%Z).
Proof.
  intros cfg rj name Hv. pose proof Hv as (Hs & Hl & Hj & Hp & Hp').
  pose proof (loss_factor_nonneg cfg Hp) as Hf.
  split.
  - intros s1 s2 H1 H12. assert (H2 : 0 < s2) by lra.
    destruct (part001_duration cfg rj name s1 Hv H1) as (_ & D1 & E1).
    destruct (part001_duration cfg rj name s2 Hv H2) as (_ & D2 & E2).
    destruct (enabled cfg) eqn:En.
    + rewrite (E1 eq_refl), (E2 eq_refl). unfold duration_formula.
      apply duration_formula_mono; [|exact Hf].
      apply Q.max_le_compat; [now apply base_ms_mono_size|].
      now apply Q.min_le_compat_l.
    + rewrite (D1 eq_refl), (D2 eq_refl). lia.
  - intros sz v1 v2 Hsz H1 H12. assert (H2 : 0 < v2) by lra.
    destruct (part001_duration (with_speed v1 cfg) rj name sz
                (with_speed_valid cfg v1 Hv H1) Hsz) as (_ & D1 & E1).
    destruct (part001_duration (with_speed v2 cfg) rj name sz
                (with_speed_valid cfg v2 Hv H2) Hsz) as (_ & D2 & E2).
    simpl enabled in *. destruct (enabled cfg) eqn:En.
    + rewrite (E1 eq_refl), (E2 eq_refl). unfold duration_formula. simpl.
      apply duration_formula_mono; [|exact Hf].
      apply Q.max_le_compat_r. apply base_ms_anti_speed; lra.
    + rewrite (D1 eq_refl), (D2 eq_refl). lia.
Qed.

Lemma part001_duration_monotone_witness :
  let small := time (Part001.calculateDownloadTime one_mbps 0 "x" (Some 472)) in
  let large := time (Part001.calculateDownloadTime one_mbps 0 "x" (Some 8400)) in
  let fast :=
    time (Part001.calculateDownloadTime (with_speed 500 one_mbps) 0 "x" (Some 8400)) in
  let slow :=
    time (Part001.calculateDownloadTime (with_speed 1 one_mbps) 0 "x" (Some 8400)) in
  (small <= large)%Z /\ (fast <= slow)%Z.
Proof.
  destruct (part001_duration_monotone one_mbps 0 "x" one_mbps_valid) as [H1 H2].
  split.
  - apply H1; [reflexivity|discriminate].
  - apply H2; [reflexivity|reflexivity|discriminate].
Defined.

(** X10: in network.js a duration is 0 or at least 30 ms: no transfer
    lasts between 1 and 29 ms, whatever the profile and the package. *)
Theorem networkjs_duration_zero_or_30 :
  forall (cfg : Config) (rj : Q) (name : string),
    valid_config cfg -> 0 <= rj ->
    let t := time (NetworkJs.calculateDownloadTime cfg rj name) in
    t = 0%Z \/ (30 <= t)%Z.
Proof.
  intros cfg rj name Hv Hr t. subst t.
  destruct (networkjs_duration cfg rj name Hv) as (_ & D0 & D1 & D2).
  destruct Hv as (Hs & Hl & Hj & Hp & Hp').
  destruct (enabled cfg) eqn:En; [|left; now apply D0].
  set (sz := js_or (NetworkJs.PACKAGE_SIZES name) 1024) in *.
  destruct (Qlt_le_dec (base_ms cfg sz) 30) as [Hlt|Hge]; [left; now apply D1|].
  right. rewrite (D2 eq_refl Hge). unfold duration_no_floor.
  change 30%Z with (Math_round 30). apply Math_round_mono.
  pose proof (loss_factor_nonneg cfg Hp) as Hf.
  assert (Hjit : 0 <= rj * jitter cfg) by now apply Qmult_le_0_compat.
  set (b := base_ms cfg sz) in *. set (f := packetLoss cfg / 100) in *.
  set (j := rj * jitter cfg) in *. clearbody b f j.
  assert (Hprod : 0 <= (b + latency cfg + j) * f)
    by (apply Qmult_le_0_compat; lra).
  lra.
Qed.

Lemma networkjs_duration_zero_or_30_witness :
  time (NetworkJs.calculateDownloadTime DEFAULT_CONFIG 0 "edit") = 0%Z \/
  (30 <= time (NetworkJs.calculateDownloadTime DEFAULT_CONFIG 0 "edit"))%Z.
Proof.
  apply (networkjs_duration_zero_or_30 DEFAULT_CONFIG 0 "edit" DEFAULT_CONFIG_valid).
  discriminate.
Defined.

(** ** The store of network configurations *)

Lemma get_config_cached s userId :
  snd (getUserNetworkConfig (fst (getUserNetworkConfig s userId)) userId)
  = snd (getUserNetworkConfig s userId) /\
  fst (getUserNetworkConfig (fst (getUserNetworkConfig s userId)) userId)
  = fst (getUserNetworkConfig s userId).
Proof.
  unfold getUserNetworkConfig.
  destruct (networkConfigsCache s !! userId) as [c|] eqn:E; simpl.
  - rewrite E. auto.
  - rewrite lookup_insert_eq. auto.
Qed.


Lemma get_config_saved s userId config other :
  getUserNetworkConfig (saveUserNetworkConfig userId config s) userId
  = (saveUserNetworkConfig userId config s, config) /\
  (userId <> other ->
   snd (getUserNetworkConfig (saveUserNetworkConfig userId config s) other)
   = snd (getUserNetworkConfig s other)).
Proof.
  unfold getUserNetworkConfig, saveUserNetworkConfig; simpl. split.
  - now rewrite lookup_insert_eq.
  - intros Hne. rewrite !lookup_insert_ne by assumption.
    destruct (networkConfigsCache s !! other); reflexivity.
Qed.

(** X11: the configuration store answers what was saved: after
    [saveUserNetworkConfig] the configuration read for that user is the
    saved one and reading changes nothing more, while the other users read
    what they read before; a user with nothing cached and nothing stored
    reads [DEFAULT_CONFIG]; and reading twice gives the same configuration
    and the same store as reading once. *)
Theorem config_store_roundtrip :
  forall (s : NetStore) (userId other : string) (config : Config),
    getUserNetworkConfig (saveUserNetworkConfig userId config s) userId
    = (saveUserNetworkConfig userId config s, config) /\
    user_network_configs (saveUserNetworkConfig userId config s) !! userId = Some config /\
    (userId <> other ->
     snd (getUserNetworkConfig (saveUserNetworkConfig userId config s) other)
     = snd (getUserNetworkConfig s other)) /\
    (networkConfigsCache s !! userId = None ->
     user_network_configs s !! userId = None ->
     snd (getUserNetworkConfig s userId) = DEFAULT_CONFIG) /\
    getUserNetworkConfig (fst (getUserNetworkConfig s userId)) userId
    = getUserNetworkConfig s userId.
Proof.
  intros s userId other config.
  destruct (get_config_saved s userId config other) as [H1 H2].
  split; [exact H1|]. split; [simpl; apply lookup_insert_eq|].
  split; [exact H2|]. split.
  - intros Hc Hd. unfold getUserNetworkConfig. rewrite Hc, Hd. reflexivity.
  - destruct (get_config_cached s userId) as [E1 E2].
    destruct (getUserNetworkConfig (fst (getUserNetworkConfig s userId)) userId) as [a b].
    destruct (getUserNetworkConfig s userId) as [a' b']. simpl in *. congruence.
Qed.

Lemma config_store_roundtrip_witness :
  snd (getUserNetworkConfig (saveUserNetworkConfig "42" one_mbps empty_store) "7")
  = snd (getUserNetworkConfig empty_store "7") /\
  snd (getUserNetworkConfig empty_store "7") = DEFAULT_CONFIG.
Proof.
  destruct (config_store_roundtrip empty_store "42" "7" one_mbps)
    as (_ & _ & H3 & _).
  destruct (config_store_roundtrip empty_store "7" "42" one_mbps)
    as (_ & _ & _ & H4 & _).
  split.
  - apply H3. discriminate.
  - apply H4; reflexivity.
Defined.









(** ** What the setters do to the active downloads *)

Lemma download_key_same_user userId n1 n2 :
  download_key userId n1 = download_key userId n2 -> n1 = n2.
Proof.
  unfold download_key. induction userId as [|a u IH]; simpl; intros H.
  - now injection H.
  - injection H as H. now apply IH.
Qed.







Lemma nettoggle_config s userId :
  snd (getUserNetworkConfig (fst (nettoggle s userId)) userId)
  = with_enabled (negb (enabled (snd (getUserNetworkConfig s userId))))
      (snd (getUserNetworkConfig s userId)).
Proof.
  unfold nettoggle. destruct (getUserNetworkConfig s userId) as [s0 c]. simpl.
  now rewrite (proj1 (get_config_saved s0 userId _ userId)).
Qed.

Lemma with_enabled_twice c :
  with_enabled (negb (enabled (with_enabled (negb (enabled c)) c)))
    (with_enabled (negb (enabled c)) c) = c.
Proof. destruct c as [a b d e f]. simpl. now rewrite negb_involutive. Qed.

(** X15: [nettoggle] on an enabled profile switches the simulation off:
    from then on [calculateDownloadTime] returns the duration 0 and
    [createDownloadSteps] the single instant step, in both network
    modules and for every package and size; a second [nettoggle] gives the
    configuration back as it was. *)
Theorem nettoggle_disables_simulation :
  forall (s : NetStore) (userId : string),
    enabled (snd (getUserNetworkConfig s userId)) = true ->
    let s1 := fst (nettoggle s userId) in
    let off := snd (getUserNetworkConfig s1 userId) in
    snd (nettoggle s userId) = ToggleReply false /\
    enabled off = false /\
    (forall (rj : Q) (rw : nat -> Q) (name : string) (sizeKB : option Q),
        time (Part001.calculateDownloadTime off rj name sizeKB) = 0%Z /\
        time (NetworkJs.calculateDownloadTime off rj name) = 0%Z /\
        is_instant (Part001.createDownloadSteps off rj name sizeKB) = true /\
        is_instant (NetworkJs.createDownloadSteps off rj rw name) = true) /\
    snd (getUserNetworkConfig (fst (nettoggle s1 userId)) userId)
    = snd (getUserNetworkConfig s userId).
Proof.
  intros s userId En s1 off.
  assert (Hs1 : s1 = saveUserNetworkConfig userId
                       (with_enabled (negb (enabled (snd (getUserNetworkConfig s userId))))
                          (snd (getUserNetworkConfig s userId)))
                       (fst (getUserNetworkConfig s userId))).
  { subst s1. unfold nettoggle.
    destruct (getUserNetworkConfig s userId) as [s0 c]. reflexivity. }
  assert (Hoff : off = with_enabled false (snd (getUserNetworkConfig s userId))).
  { subst off. rewrite Hs1.
    rewrite (proj1 (get_config_saved _ userId _ userId)). simpl. now rewrite En. }
  assert (Eoff : enabled off = false) by (rewrite Hoff; reflexivity).
  split.
  { unfold nettoggle. destruct (getUserNetworkConfig s userId) as [s0 c].
    simpl in *. now rewrite En. }
  split; [exact Eoff|]. split.
  - intros rj rw name sizeKB.
    unfold Part001.createDownloadSteps, NetworkJs.createDownloadSteps,
      NetworkJs.createDownloadSteps_body,
      Part001.calculateDownloadTime, NetworkJs.calculateDownloadTime.
    rewrite Eoff. simpl negb. cbv iota. simpl. repeat split.
  - subst s1. rewrite !nettoggle_config. apply with_enabled_twice.
Qed.

Lemma nettoggle_disables_simulation_witness :
  let off := snd (getUserNetworkConfig (fst (nettoggle empty_store "42")) "42") in
  time (Part001.calculateDownloadTime off 0 "edit" (Some 8400)) = 0%Z /\
  time (NetworkJs.calculateDownloadTime off 0 "edit") = 0%Z.
Proof.
  destruct (nettoggle_disables_simulation empty_store "42" eq_refl)
    as (_ & _ & H & _).
  destruct (H 0 half "edit" (Some 8400)) as (H1 & H2 & _).
  split; [exact H1|exact H2].
Defined.

(** ** The registry keeps the users apart *)

Lemma download_key_inj u1 p1 u2 p2 :
  colon_free u1 = true -> colon_free u2 = true ->
  download_key u1 p1 = download_key u2 p2 -> u1 = u2 /\ p1 = p2.
Proof.
  unfold download_key. revert u2.
  induction u1 as [|a u1 IH]; intros [|b u2] H1 H2 H; simpl in *.
  - injection H as H. auto.
  - injection H as Ha _. subst b. simpl in H2. discriminate.
  - injection H as Ha _. subst a. simpl in H1. discriminate.
  - injection H as Ha H. subst b.
    apply andb_true_iff in H1 as [_ H1]. apply andb_true_iff in H2 as [_ H2].
    destruct (IH u2 H1 H2 H) as [-> ->]. auto.
Qed.

(** X16: the registry keeps transfers apart: for user ids without a
    colon, setting or removing the entry of one (user, package) pair leaves
    the entry of every other pair as it was, and never touches a
    filesystem; what was set is read back, and what was removed is absent.
    (Two pairs share a key when a colon of the user id can be read as the
    separator: ("a:b", "c") and ("a", "b:c").) *)
Theorem registry_isolation :
  forall (w : World) (u1 p1 u2 p2 : string) (o : option DownloadState),
    getDownloadStatus (setDownloadStatus u1 p1 o w) u1 p1 = o /\
    user_filesystems (setDownloadStatus u1 p1 o w) = user_filesystems w /\
    saves (setDownloadStatus u1 p1 o w) = saves w /\
    (colon_free u1 = true -> colon_free u2 = true -> (u1, p1) <> (u2, p2) ->
     getDownloadStatus (setDownloadStatus u1 p1 o w) u2 p2 = getDownloadStatus w u2 p2) /\
    download_key "a:b" "c" = download_key "a" "b:c".
Proof.
  intros w u1 p1 u2 p2 o. split; [|split; [|split; [|split]]].
  - destruct o; [apply get_after_set|apply get_after_clear].
  - apply saves_after_set.
  - apply saves_after_set.
  - intros H1 H2 Hne.
    assert (Hk : download_key u1 p1 <> download_key u2 p2).
    { intros E. destruct (download_key_inj u1 p1 u2 p2 H1 H2 E) as [-> ->].
      now apply Hne. }
    unfold getDownloadStatus, setDownloadStatus. destruct o; simpl.
    + now rewrite lookup_insert_ne.
    + now rewrite lookup_delete_ne.
  - reflexivity.
Qed.

Lemma registry_isolation_witness :
  getDownloadStatus (setDownloadStatus "7" "echo" None sample_started) "42" "echo"
  = getDownloadStatus sample_started "42" "echo".
Proof.
  destruct (registry_isolation sample_started "7" "echo" "42" "echo" None)
    as (_ & _ & _ & H & _).
  apply H; [reflexivity|reflexivity|discriminate].
Defined.

(** ** pkg install and pkg remove *)

Section Install.

Variable packageDefinitions : gmap string PackageDefinition.
Variables PACKAGE_SIZES UPDATE_SIZES : gmap string Q.
Variable osBranches : gmap string string.
Variable createDownloadSteps : string -> string -> option Q -> list Step.
Variable createFilesystem : UserFS.

Local Abbreviation pkg :=
  (pkgCommand packageDefinitions PACKAGE_SIZES UPDATE_SIZES osBranches
     createDownloadSteps createFilesystem).
Local Abbreviation working := (working_filesystem createFilesystem).

Lemma pkg_install_unfold now w userId args name :
  args !! 0%nat = Some "install" -> args !! 1%nat = Some name -> name <> "" ->
  let userFS := working w userId in
  let currentVersion := string_or (content_of (os_version userFS)) "1.0.0" in
  let currentBranch := string_or (os_branch userFS) "stable" in
  pkgs userFS !! (name ++ ".pkg")%string = None ->
  pkg now w userId args
  = if isPackageAvailable packageDefinitions name currentVersion currentBranch
    then
      let r := processDownload PACKAGE_SIZES UPDATE_SIZES createDownloadSteps now
                 (setDownloadStatus userId name None w) userId userFS name true in
      (world r, outcome r)
    else (w, Returned (Some (unavailable_reply packageDefinitions name currentBranch))).
Proof.
  intros H0 H1 Hname userFS currentVersion currentBranch Hfree.
  unfold pkgCommand. rewrite H0, H1. simpl string_or at 1.
  cbv iota. simpl String.eqb at 1. cbv iota.
  rewrite (string_or_nonempty name "" Hname).
  replace (String.eqb name "") with false
    by (symmetry; apply String.eqb_neq; assumption).
  simpl String.eqb. cbv iota.
  fold (working w userId). fold userFS. rewrite Hfree.
  fold currentVersion. fold currentBranch.
  destruct (isPackageAvailable packageDefinitions name currentVersion currentBranch);
    simpl; [reflexivity|].
  unfold unavailable_reply.
  destruct (packageDefinitions !! name) as [d|]; [|reflexivity].
  destruct (minVersion_on d currentBranch); reflexivity.
Qed.

Lemma pkg_remove_unfold now w userId args name :
  args !! 0%nat = Some "remove" -> args !! 1%nat = Some name -> name <> "" ->
  let userFS := working w userId in
  pkg now w userId args
  = match pkgs userFS !! (name ++ ".pkg")%string with
    | None => (setDownloadStatus userId name None w, Returned (Some (RemoveNotFound name)))
    | Some _ =>
      (saveToDB userId (without_pkg (name ++ ".pkg") userFS)
         (setDownloadStatus userId name None w),
       Returned (Some (RemovedPackage name)))
    end.
Proof.
  intros H0 H1 Hname userFS.
  unfold pkgCommand. rewrite H0, H1. simpl string_or at 1.
  cbv iota. simpl String.eqb at 1. cbv iota.
  rewrite (string_or_nonempty name "" Hname).
  replace (String.eqb name "") with false
    by (symmetry; apply String.eqb_neq; assumption).
  simpl String.eqb. cbv iota.
  fold (working w userId). fold userFS. reflexivity.
Qed.

Lemma working_has_branch w userId :
  os_branch (working w userId) <> None.
Proof.
  unfold working_filesystem.
  destruct (os_branch (loadFromDB createFilesystem w userId)) eqn:E; simpl; congruence.
Qed.

Lemma working_of_stored w userId userFS :
  user_filesystems w !! userId = Some userFS -> os_branch userFS <> None ->
  working w userId = userFS.
Proof.
  intros H Hb. unfold working_filesystem, loadFromDB. rewrite H. simpl.
  destruct (os_branch userFS); [reflexivity|contradiction].
Qed.

Lemma get_other_after_set w userId name other o :
  other <> name ->
  getDownloadStatus (setDownloadStatus userId name o w) userId other
  = getDownloadStatus w userId other.
Proof.
  intros Hne. unfold getDownloadStatus, setDownloadStatus.
  assert (Hk : download_key userId name <> download_key userId other)
    by (intros E; apply download_key_same_user in E; congruence).
  destruct o; simpl; [now rewrite lookup_insert_ne|now rewrite lookup_delete_ne].
Qed.

(** X17: [pkg install <name>] of an available package that is not
    installed starts afresh, whatever the registry held for the name: with
    an instant plan the record is written and saved once, its branch read
    from [/os_branch] at the root of the tree rather than from
    [/sys/os_branch], and nothing is registered; otherwise the plan is
    registered at step 0, nothing is written or saved, and the call throws
    exactly when the plan is empty.  The transfers of other names are left
    alone. *)
Theorem install_starts_afresh now w userId args name :
  args !! 0%nat = Some "install" -> args !! 1%nat = Some name -> name <> "" ->
  String.prefix "update-" name = false ->
  let userFS := working w userId in
  let currentVersion := string_or (content_of (os_version userFS)) "1.0.0" in
  pkgs userFS !! (name ++ ".pkg")%string = None ->
  isPackageAvailable packageDefinitions name currentVersion
    (string_or (os_branch userFS) "stable") = true ->
  let plan := createDownloadSteps userId name (PACKAGE_SIZES !! name) in
  let installed :=
    with_pkg (name ++ ".pkg")
      (package_record name currentVersion (string_or (root_os_branch userFS) "stable"))
      userFS in
  let w' := fst (pkg now w userId args) in
  let out := snd (pkg now w userId args) in
  (forall other, other <> name ->
     getDownloadStatus w' userId other = getDownloadStatus w userId other) /\
  (is_instant plan = true ->
     out = Returned (Some (InstalledPackage name)) /\
     getDownloadStatus w' userId name = None /\
     user_filesystems w' !! userId = Some installed /\
     saves w' = (userId, installed) :: saves w) /\
  (is_instant plan = false ->
     getDownloadStatus w' userId name = Some (mkDownloadState plan 0 now false None) /\
     user_filesystems w' = user_filesystems w /\
     saves w' = saves w /\
     (out = Thrown <-> plan = [])).
Proof.
  intros H0 H1 Hname Hupd userFS currentVersion Hfree Hav plan installed w' out.
  pose proof (pkg_install_unfold now w userId args name H0 H1 Hname Hfree) as E.
  fold userFS in E. fold currentVersion in E. rewrite Hav in E.
  subst w' out. rewrite E. clear E. cbv zeta.
  unfold processDownload. rewrite get_after_clear, Hupd. cbv iota. fold plan.
  destruct (is_instant plan) eqn:Ei; cbn [fst snd world outcome].
  - split; [|split; [|intros; discriminate]].
    + intros other Hne. rewrite get_after_save.
      now apply get_other_after_set.
    + intros _. split; [reflexivity|].
      split; [rewrite get_after_save; apply get_after_clear|].
      split; [simpl; apply lookup_insert_eq|reflexivity].
  - assert (Hw : world match plan with
                   | [] =>
                     mkResult
                       (setDownloadStatus userId name
                          (Some (mkDownloadState plan 0 now false None))
                          (setDownloadStatus userId name None w)) userFS Thrown
                   | first :: _ =>
                     mkResult
                       (setDownloadStatus userId name
                          (Some (mkDownloadState plan 0 now false None))
                          (setDownloadStatus userId name None w)) userFS
                       (Returned (Some (StartedDownload name (message first))))
                   end
                 = setDownloadStatus userId name
                     (Some (mkDownloadState plan 0 now false None))
                     (setDownloadStatus userId name None w))
      by (destruct plan; reflexivity).
    rewrite Hw.
    split; [|split; [intros; discriminate|]].
    + intros other Hne. now rewrite !get_other_after_set.
    + intros _. split; [apply get_after_set|].
      split; [reflexivity|]. split; [reflexivity|].
      destruct plan; simpl; split; intros; congruence.
Qed.


Lemma install_world_after now w userId name :
  name <> "" -> String.prefix "update-" name = false ->
  let userFS := working w userId in
  let currentVersion := string_or (content_of (os_version userFS)) "1.0.0" in
  pkgs userFS !! (name ++ ".pkg")%string = None ->
  isPackageAvailable packageDefinitions name currentVersion
    (string_or (os_branch userFS) "stable") = true ->
  let plan := createDownloadSteps userId name (PACKAGE_SIZES !! name) in
  let installed :=
    with_pkg (name ++ ".pkg")
      (package_record name currentVersion (string_or (root_os_branch userFS) "stable"))
      userFS in
  pkg now w userId ["install"; name]
  = if is_instant plan
    then (saveToDB userId installed (setDownloadStatus userId name None w),
          Returned (Some (InstalledPackage name)))
    else (setDownloadStatus userId name (Some (mkDownloadState plan 0 now false None))
            (setDownloadStatus userId name None w),
          match plan with
          | [] => Thrown
          | first :: _ => Returned (Some (StartedDownload name (message first)))
          end).
Proof.
  intros Hname Hupd userFS currentVersion Hfree Hav plan installed.
  pose proof (pkg_install_unfold now w userId ["install"; name] name
                eq_refl eq_refl Hname Hfree) as E.
  fold userFS in E. fold currentVersion in E. rewrite Hav in E.
  rewrite E. clear E. cbv zeta.
  unfold processDownload. rewrite get_after_clear, Hupd. cbv iota. fold plan.
  destruct (is_instant plan); [reflexivity|].
  destruct plan; reflexivity.
Qed.

Lemma working_ext w1 w2 userId :
  user_filesystems w1 = user_filesystems w2 -> working w1 userId = working w2 userId.
Proof. intros H. unfold working_filesystem, loadFromDB. now rewrite H. Qed.

Lemma without_with_pkg userFS fileName n :
  pkgs userFS !! fileName = None ->
  without_pkg fileName (with_pkg fileName n userFS) = userFS.
Proof.
  intros H. destruct userFS as [p v b rb]. unfold without_pkg, with_pkg. simpl in *.
  f_equal. now apply delete_insert_id.
Qed.

(** X19: [pkg remove <name>] undoes [pkg install <name>].  After an
    install with an instant plan it answers "Removed package", and the
    filesystem stored for the user is again the one the install worked on,
    after two saves; after an install that registered a transfer it cancels
    the transfer, answers "Package not found", and the database is as
    before the install.  In both cases nothing is registered for the name
    afterwards. *)
Theorem remove_undoes_install now now2 w userId name :
  name <> "" -> String.prefix "update-" name = false ->
  let userFS := working w userId in
  let currentVersion := string_or (content_of (os_version userFS)) "1.0.0" in
  pkgs userFS !! (name ++ ".pkg")%string = None ->
  isPackageAvailable packageDefinitions name currentVersion
    (string_or (os_branch userFS) "stable") = true ->
  let plan := createDownloadSteps userId name (PACKAGE_SIZES !! name) in
  let w1 := fst (pkg now w userId ["install"; name]) in
  let w2 := fst (pkg now2 w1 userId ["remove"; name]) in
  let out2 := snd (pkg now2 w1 userId ["remove"; name]) in
  getDownloadStatus w2 userId name = None /\
  (is_instant plan = true ->
     out2 = Returned (Some (RemovedPackage name)) /\
     user_filesystems w2 !! userId = Some userFS /\
     length (saves w2) = (2 + length (saves w))%nat) /\
  (is_instant plan = false ->
     out2 = Returned (Some (RemoveNotFound name)) /\
     user_filesystems w2 = user_filesystems w /\
     saves w2 = saves w).
Proof.
  intros Hname Hupd userFS currentVersion Hfree Hav plan w1 w2 out2.
  pose proof (install_world_after now w userId name Hname Hupd Hfree Hav) as E.
  cbv zeta in E. fold userFS in E. fold currentVersion in E. fold plan in E.
  pose proof (pkg_remove_unfold now2 w1 userId ["remove"; name] name
                eq_refl eq_refl Hname) as R.
  cbv zeta in R. subst w2 out2. rewrite R. clear R.
  destruct (is_instant plan) eqn:Ei.
  - set (installed :=
           with_pkg (name ++ ".pkg")
             (package_record name currentVersion
                (string_or (root_os_branch userFS) "stable")) userFS) in *.
    assert (Hw1 : w1 = saveToDB userId installed (setDownloadStatus userId name None w))
      by (subst w1; now rewrite E).
    assert (Hwork : working w1 userId = installed).
    { apply working_of_stored.
      - rewrite Hw1. simpl. apply lookup_insert_eq.
      - subst installed. simpl. apply working_has_branch. }
    rewrite Hwork.
    assert (Hin : pkgs installed !! (name ++ ".pkg")%string
                  = Some (package_record name currentVersion
                            (string_or (root_os_branch userFS) "stable")))
      by (subst installed; simpl; apply lookup_insert_eq).
    rewrite Hin. cbn [fst snd].
    split; [rewrite get_after_save; apply get_after_clear|].
    split; [|intros; discriminate].
    intros _. split; [reflexivity|].
    split.
    + simpl. rewrite lookup_insert_eq. f_equal.
      subst installed. now apply without_with_pkg.
    + rewrite Hw1. simpl. reflexivity.
  - assert (Hw1 : w1 = setDownloadStatus userId name
                         (Some (mkDownloadState plan 0 now false None))
                         (setDownloadStatus userId name None w))
      by (subst w1; now rewrite E).
    assert (Hwork : working w1 userId = userFS).
    { subst userFS. apply working_ext. now rewrite Hw1. }
    rewrite Hwork, Hfree. cbn [fst snd].
    split; [apply get_after_clear|].
    split; [intros; discriminate|].
    intros _. split; [reflexivity|]. rewrite Hw1. split; reflexivity.
Qed.

(** X20: when the network module plans no step at all for a package, as
    part_001 does for a duration of 0 ms, [pkg install] registers the empty
    plan and then throws on its first step; [pkg status <name>] throws as
    well; and the next poll of the package removes the entry and answers
    "installed successfully" although no record is written and nothing is
    saved. *)
Theorem empty_plan_reports_success now now2 w userId name userFS2 :
  name <> "" -> String.prefix "update-" name = false ->
  let userFS := working w userId in
  let currentVersion := string_or (content_of (os_version userFS)) "1.0.0" in
  pkgs userFS !! (name ++ ".pkg")%string = None ->
  isPackageAvailable packageDefinitions name currentVersion
    (string_or (os_branch userFS) "stable") = true ->
  createDownloadSteps userId name (PACKAGE_SIZES !! name) = [] ->
  let w1 := fst (pkg now w userId ["install"; name]) in
  let r := processDownload PACKAGE_SIZES UPDATE_SIZES createDownloadSteps
             now2 w1 userId userFS2 name false in
  snd (pkg now w userId ["install"; name]) = Thrown /\
  is_Some (getDownloadStatus w1 userId name) /\
  pkg now2 w1 userId ["status"; name] = (w1, Thrown) /\
  outcome r = Returned (Some (PackageInstalled name)) /\
  userFS_after r = userFS2 /\
  getDownloadStatus (world r) userId name = None /\
  user_filesystems (world r) = user_filesystems w /\
  saves (world r) = saves w.
Proof.
  intros Hname Hupd userFS currentVersion Hfree Hav Hplan w1 r.
  pose proof (install_world_after now w userId name Hname Hupd Hfree Hav) as E.
  cbv zeta in E. rewrite Hplan in E. cbn [is_instant] in E.
  set (ds := mkDownloadState [] 0 now false None) in *.
  assert (Hw1 : w1 = setDownloadStatus userId name (Some ds)
                       (setDownloadStatus userId name None w))
    by (subst w1; now rewrite E).
  assert (Hget : getDownloadStatus w1 userId name = Some ds)
    by (rewrite Hw1; apply get_after_set).
  split; [now rewrite E|].
  split; [rewrite Hget; eauto|].
  split.
  { unfold pkgCommand. simpl string_or at 1. cbv iota. simpl String.eqb at 1. cbv iota.
    change (["status"; name] !! 1%nat) with (Some name).
    rewrite (string_or_nonempty name "" Hname).
    replace (String.eqb name "") with false
      by (symmetry; apply String.eqb_neq; assumption).
    simpl String.eqb. cbv iota. rewrite Hget. reflexivity. }
  subst r. unfold processDownload. rewrite Hget, Hupd. cbn -[setDownloadStatus].
  split; [reflexivity|]. split; [reflexivity|].
  split; [apply get_after_clear|].
  rewrite Hw1. split; reflexivity.
Qed.

End Install.

Lemma install_starts_afresh_witness :
  let w' :=
    fst (pkgCommand sample_definitions sample_sizes ∅ sample_branches
           sample_createDownloadSteps sample_filesystem 5000 sample_started "42"
           ["install"; "echo"]) in
  getDownloadStatus w' "42" "echo" = Some (mkDownloadState sample_plan 0 5000 false None) /\
  saves w' = [].
Proof.
  destruct (install_starts_afresh sample_definitions sample_sizes ∅ sample_branches
              sample_createDownloadSteps sample_filesystem 5000 sample_started "42"
              ["install"; "echo"] "echo") as (_ & _ & H).
  - reflexivity.
  - reflexivity.
  - discriminate.
  - reflexivity.
  - reflexivity.
  - vm_compute. reflexivity.
  - destruct H as (H1 & _ & H3 & _); [reflexivity|]. split; [exact H1|exact H3].
Defined.


Lemma remove_undoes_install_witness :
  let w1 :=
    fst (pkgCommand sample_definitions sample_sizes ∅ sample_branches
           instant_createDownloadSteps sample_filesystem 5000 sample_started "42"
           ["install"; "edit"]) in
  let w2 :=
    fst (pkgCommand sample_definitions sample_sizes ∅ sample_branches
           instant_createDownloadSteps sample_filesystem 6000 w1 "42"
           ["remove"; "edit"]) in
  user_filesystems w2 !! "42" = Some sample_filesystem /\
  length (saves w2) = 2%nat.
Proof.
  destruct (remove_undoes_install sample_definitions sample_sizes ∅ sample_branches
              instant_createDownloadSteps sample_filesystem 5000 6000 sample_started
              "42" "edit") as (_ & H & _).
  - discriminate.
  - reflexivity.
  - reflexivity.
  - vm_compute. reflexivity.
  - destruct H as (_ & H2 & H3); [reflexivity|]. split; [exact H2|exact H3].
Defined.

Lemma empty_plan_reports_success_witness :
  let w1 :=
    fst (pkgCommand tiny_definitions tiny_sizes ∅ sample_branches
           tiny_createDownloadSteps sample_filesystem 5000 sample_started "42"
           ["install"; "tiny"]) in
  let r := processDownload tiny_sizes ∅ tiny_createDownloadSteps 6000 w1 "42"
             sample_filesystem "tiny" false in
  outcome r = Returned (Some (PackageInstalled "tiny")) /\
  userFS_after r = sample_filesystem /\
  saves (world r) = [].
Proof.
  destruct (empty_plan_reports_success tiny_definitions tiny_sizes ∅ sample_branches
              tiny_createDownloadSteps sample_filesystem 5000 6000 sample_started
              "42" "tiny" sample_filesystem) as (_ & _ & _ & H1 & H2 & _ & _ & H3).
  - discriminate.
  - reflexivity.
  - reflexivity.
  - vm_compute. reflexivity.
  - vm_compute. reflexivity.
  - split; [exact H1|]. split; [exact H2|exact H3].
Defined.

(** ** The polling block of cd and ls *)

Section NavigationPolls.

Variables PACKAGE_SIZES UPDATE_SIZES : gmap string Q.
Variable createDownloadSteps : string -> string -> option Q -> list Step.

Local Abbreviation poll :=
  (processDownload PACKAGE_SIZES UPDATE_SIZES createDownloadSteps).
Local Abbreviation pollAll :=
  (pollDownloads PACKAGE_SIZES UPDATE_SIZES createDownloadSteps).

(** What one poll of a package does to the state around it. *)
Lemma poll_package_effect now w userId userFS name ds :
  String.prefix "update-" name = false ->
  getDownloadStatus w userId name = Some ds ->
  let r := poll now w userId userFS name false in
  (exists o, outcome r = Returned o) /\
  (forall other, other <> name ->
     getDownloadStatus (world r) userId other = getDownloadStatus w userId other) /\
  (forall d, getDownloadStatus (world r) userId name = Some d -> d = ds) /\
  (forall f, is_Some (pkgs userFS !! f) -> is_Some (pkgs (userFS_after r) !! f)) /\
  (user_filesystems w !! userId = Some userFS ->
   user_filesystems (world r) !! userId = Some (userFS_after r)) /\
  (steps ds <> [] -> currentStep ds = (length (steps ds) - 1)%nat ->
   getDownloadStatus (world r) userId name = None /\
   is_Some (pkgs (userFS_after r) !! (name ++ ".pkg")%string) /\
   user_filesystems (world r) !! userId = Some (userFS_after r)).
Proof.
  intros Hupd Hget r. subst r. unfold processDownload. rewrite Hget, Hupd.
  destruct (steps ds !! currentStep ds) as [step|] eqn:Estep.
  - cbn [negb].
    destruct (currentStep ds =? length (steps ds) - 1)%nat eqn:Elast;
      cbn -[setDownloadStatus saveToDB].
    + split; [eauto|]. split.
      { intros other Hne. rewrite get_other_after_set by exact Hne.
        apply get_after_save. }
      split; [intros d Hd; rewrite get_after_clear in Hd; discriminate|].
      split.
      { intros f Hf. destruct (String.string_dec f (name ++ ".pkg")) as [->|Hne].
        - rewrite lookup_insert_eq. eauto.
        - rewrite lookup_insert_ne by congruence. exact Hf. }
      split; [intros _; simpl; apply lookup_insert_eq|].
      intros _ _. split; [apply get_after_clear|].
      split; [rewrite lookup_insert_eq; eauto|simpl; apply lookup_insert_eq].
    + split; [eauto|]. split; [reflexivity|].
      split; [intros d Hd; congruence|]. split; [auto|]. split; [auto|].
      intros _ Hlast. apply Nat.eqb_neq in Elast. contradiction.
  - cbn -[setDownloadStatus].
    split; [eauto|]. split; [intros other Hne; now apply get_other_after_set|].
    split; [intros d Hd; rewrite get_after_clear in Hd; discriminate|].
    split; [auto|]. split; [auto|].
    intros Hne Hlast. exfalso. apply lookup_ge_None in Estep.
    destruct (steps ds); [contradiction|simpl in *; lia].
Qed.

(** X21: the block "Check for ongoing downloads and update them" of [cd]
    and [ls], run over package names none of which starts with "update-",
    never throws; it leaves the transfers of every name outside the list
    as they are, so the transfer of a system update is never completed by
    it; it never registers or alters a transfer, it only removes entries;
    it removes no installed package; and every listed package whose
    transfer stands at its last step is installed into the one filesystem
    object all the calls share, which is the filesystem stored for the
    user afterwards. *)
Theorem navigation_polls_listed_packages now userId pkgNames :
  Forall (fun n => String.prefix "update-" n = false) pkgNames ->
  forall (w : World) (userFS2 : UserFS),
    let res := pollAll now w userId userFS2 pkgNames in
    let w' := fst (fst res) in
    let fs' := snd (fst res) in
    snd res = false /\
    (forall name, ~ In name pkgNames ->
       getDownloadStatus w' userId name = getDownloadStatus w userId name) /\
    (forall name ds, getDownloadStatus w' userId name = Some ds ->
       getDownloadStatus w userId name = Some ds) /\
    (forall f, is_Some (pkgs userFS2 !! f) -> is_Some (pkgs fs' !! f)) /\
    (user_filesystems w !! userId = Some userFS2 ->
     user_filesystems w' !! userId = Some fs') /\
    (forall name ds, In name pkgNames ->
       getDownloadStatus w userId name = Some ds ->
       steps ds <> [] -> currentStep ds = (length (steps ds) - 1)%nat ->
       getDownloadStatus w' userId name = None /\
       is_Some (pkgs fs' !! (name ++ ".pkg")%string) /\
       user_filesystems w' !! userId = Some fs').
Proof.
  induction 1 as [|h rest Hh Hrest IH]; intros w userFS2.
  - simpl. split; [reflexivity|]. split; [auto|]. split; [auto|].
    split; [auto|]. split; [auto|]. intros name ds [].
  - cbn [pollDownloads].
    destruct (getDownloadStatus w userId h) as [dh|] eqn:Eh.
    + destruct (poll_package_effect now w userId userFS2 h dh Hh Eh)
        as ([o Ho] & Hother & Hsame & Hgrow & Hsync & Hfin).
      rewrite Ho.
      set (r := poll now w userId userFS2 h false) in *.
      specialize (IH (world r) (userFS_after r)). cbv zeta in IH.
      destruct IH as (I1 & I2 & I3 & I4 & I5 & I6).
      cbv zeta.
      set (res := pollAll now (world r) userId (userFS_after r) rest) in *.
      split; [exact I1|]. split.
      { intros name Hnot. rewrite I2 by (intros Hin; apply Hnot; now right).
        apply Hother. intros ->. apply Hnot. now left. }
      split.
      { intros name ds Hds. apply I3 in Hds.
        destruct (String.string_dec name h) as [->|Hne].
        - apply Hsame in Hds. congruence.
        - now rewrite Hother in Hds. }
      split; [intros f Hf; apply I4, Hgrow, Hf|].
      split; [intros Hs; apply I5, Hsync, Hs|].
      intros name ds Hin Hds Hne Hlast.
      destruct (String.string_dec name h) as [->|Hneq].
      * assert (ds = dh) by congruence. subst ds.
        destruct (Hfin Hne Hlast) as (F1 & F2 & F3).
        split.
        { destruct (getDownloadStatus (fst (fst res)) userId h) as [d|] eqn:Ed;
            [|reflexivity].
          apply I3 in Ed. congruence. }
        split; [apply I4, F2|apply I5, F3].
      * destruct Hin as [->|Hin]; [contradiction|].
        apply (I6 name ds Hin); [|exact Hne|exact Hlast].
        now rewrite Hother.
    + specialize (IH w userFS2). cbv zeta in IH.
      destruct IH as (I1 & I2 & I3 & I4 & I5 & I6). cbv zeta.
      split; [exact I1|]. split.
      { intros name Hnot. apply I2. intros Hin. apply Hnot. now right. }
      split; [exact I3|]. split; [exact I4|]. split; [exact I5|].
      intros name ds [->|Hin] Hds Hne Hlast; [congruence|].
      now apply (I6 name ds).
Qed.

End NavigationPolls.

Lemma navigation_polls_listed_packages_witness :
  let res := pollDownloads sample_sizes ∅ sample_createDownloadSteps 5000
               sample_finishing "42" sample_filesystem ["echo"; "edit"] in
  getDownloadStatus (fst (fst res)) "42" "echo" = None /\
  is_Some (pkgs (snd (fst res)) !! "echo.pkg") /\
  user_filesystems (fst (fst res)) !! "42" = Some (snd (fst res)).
Proof.
  assert (Hnames : Forall (fun n => String.prefix "update-" n = false) ["echo"; "edit"])
    by (repeat constructor).
  destruct (navigation_polls_listed_packages sample_sizes ∅ sample_createDownloadSteps
              5000 "42" ["echo"; "edit"] Hnames sample_finishing sample_filesystem)
    as (_ & _ & _ & _ & _ & H).
  apply (H "echo" (mkDownloadState sample_plan 2 1000 false None)).
  - left. reflexivity.
  - reflexivity.
  - intros E. vm_compute in E. discriminate E.
  - vm_compute. reflexivity.
Defined.

(** ** pkg upgrade and the rest of the state *)

Section UpgradeFrame.

Variable packageDefinitions : gmap string PackageDefinition.
Variables PACKAGE_SIZES UPDATE_SIZES : gmap string Q.
Variable osBranches : gmap string string.
Variable createDownloadSteps : string -> string -> option Q -> list Step.
Variable createFilesystem : UserFS.

Local Abbreviation pkg :=
  (pkgCommand packageDefinitions PACKAGE_SIZES UPDATE_SIZES osBranches
     createDownloadSteps createFilesystem).

(** The world after [pkg upgrade] to a known branch: as before, or with
    the branch saved and the update registered. *)
Lemma pkgUpgradeTo_world now w userId userFS targetBranch :
  let fsV := match os_version userFS with
             | None => with_os_version (Some "1.0.0") userFS
             | Some _ => userFS
             end in
  let targetVersion := osBranches !! targetBranch in
  let key := ("update-" ++ str targetVersion)%string in
  let plan := createDownloadSteps userId key
                (Some (getUpdateSize UPDATE_SIZES (str targetVersion))) in
  let w' := fst (pkgUpgradeTo UPDATE_SIZES osBranches createDownloadSteps
                   now w userId userFS targetBranch) in
  w' = w \/
  w' = setDownloadStatus userId key (Some (mkDownloadState plan 0 now true targetVersion))
         (saveToDB userId (with_os_branch targetBranch fsV) w).
Proof.
  intros fsV targetVersion key plan w'. subst w'. unfold pkgUpgradeTo.
  fold fsV. fold targetVersion.
  destruct (bool_decide (content_of (os_version fsV) = targetVersion)
            && String.eqb (default "" (os_branch fsV)) targetBranch);
    [left; reflexivity|].
  match goal with
  | |- context [match ?d with Some _ => _ | None => (w, Thrown) end] =>
    destruct d as [isDowngrade|]
  end; [|left; reflexivity].
  right. unfold startUpdateDownload. fold key. fold plan. cbn [steps].
  destruct plan; [reflexivity|].
  destruct isDowngrade; [reflexivity|].
  destruct (bool_decide (content_of (os_version fsV) = targetVersion)); reflexivity.
Qed.

(** X22: [pkg upgrade], whatever its arguments, leaves the filesystems of
    the other users and every transfer of the user that is not an update
    as they are; it either changes nothing at all, or saves the filesystem
    of the user once, with the installed packages and the version it had
    (1.0.0 when the leaf was missing): the version itself is never written
    by the command. *)
Theorem upgrade_leaves_packages_alone now w userId args :
  args !! 0%nat = Some "upgrade" ->
  let base := loadFromDB createFilesystem w userId in
  let w' := fst (pkg now w userId args) in
  (forall u, u <> userId -> user_filesystems w' !! u = user_filesystems w !! u) /\
  (forall name, String.prefix "update-" name = false ->
     getDownloadStatus w' userId name = getDownloadStatus w userId name) /\
  (w' = w \/
   exists fs' : UserFS,
     saves w' = (userId, fs') :: saves w /\
     user_filesystems w' !! userId = Some fs' /\
     pkgs fs' = pkgs base /\
     os_version fs' = Some (default (Some "1.0.0") (os_version base))).
Proof.
  intros H0 base w'.
  set (fsB := match os_branch base with
              | None => with_os_branch "stable" base
              | Some _ => base
              end).
  assert (HBp : pkgs fsB = pkgs base) by (subst fsB; destruct (os_branch base); reflexivity).
  assert (HBv : os_version fsB = os_version base)
    by (subst fsB; destruct (os_branch base); reflexivity).
  assert (Hcases : w' = w \/
            exists targetBranch,
              w' = fst (pkgUpgradeTo UPDATE_SIZES osBranches createDownloadSteps
                          now w userId fsB targetBranch)).
  { subst w'. unfold pkgCommand. rewrite H0. simpl string_or. simpl String.eqb.
    cbv iota. fold base. fold fsB. unfold pkgUpgrade.
    destruct (List.find (String.prefix "--") args) as [arg|]; [|right; eauto].
    match goal with
    | |- context [if ?b then _ else _] => destruct b
    end; [left; reflexivity|right; eauto]. }
  destruct Hcases as [->|[targetBranch Hw']]; [auto|].
  pose proof (pkgUpgradeTo_world now w userId fsB targetBranch) as Hw.
  cbv zeta in Hw. rewrite <- Hw' in Hw. destruct Hw as [->|Hw]; [auto|].
  rewrite Hw. split.
  { intros u Hu. rewrite (proj2 (saves_after_set _ _ _ _)). simpl.
    now rewrite lookup_insert_ne by congruence. }
  split.
  { intros name Hname. rewrite get_other_after_set; [apply get_after_save|].
    intros ->. rewrite update_name_is_update in Hname. discriminate. }
  right. eexists. split; [reflexivity|]. split; [simpl; apply lookup_insert_eq|].
  split.
  - simpl. destruct (os_version fsB); exact HBp.
  - simpl. rewrite <- HBv. destruct (os_version fsB) eqn:Ev; simpl; [exact Ev|reflexivity].
Qed.

End UpgradeFrame.

Lemma upgrade_leaves_packages_alone_witness :
  let w' :=
    fst (pkgCommand sample_definitions sample_sizes ∅ sample_branches
           sample_createDownloadSteps sample_filesystem 5000 sample_started "42"
           ["upgrade"; "--unstable"]) in
  getDownloadStatus w' "42" "echo" = getDownloadStatus sample_started "42" "echo".
Proof.
  destruct (upgrade_leaves_packages_alone sample_definitions sample_sizes ∅
              sample_branches sample_createDownloadSteps sample_filesystem 5000
              sample_started "42" ["upgrade"; "--unstable"] eq_refl) as (_ & H & _).
  apply H. reflexivity.
Defined.
